(** * AutoProf pipeline engine: a shallow embedding of [Pipeline.py]

    The class [Isophote_Pipeline] keeps a registry of step functions
    ([pipeline_methods]) and a graph of named step sequences
    ([pipeline_steps]).  [Process_Image] runs the step-dispatch loop over one
    image, [Process_List] fans it out over a list of images and averages the
    step timings, [UpdatePipeline] edits registry and sequences, and
    [Process_ConfigFile] selects the forced or standard sequence and
    dispatches on the processing mode.

    Conventions of the embedding:
    - a Python [dict] is an insertion-ordered association list with unique
      keys ([PyDict]); the code iterates over dicts ([options.keys()],
      [r.keys()], [for s in timers]), so the order is kept;
    - Python floats are IEEE binary64, i.e. Rocq's primitive [float];
    - an uncaught exception is the [Raises] completion, a caught one shows
      only through the log and the returned [1];
    - the [while] loop of [Process_Image] need not terminate (a branch step
      can redirect for ever), so the loop takes fuel and returns [None] when
      it runs out;
    - the step functions, [Read_Image] and the wall clock are collaborators
      outside [Pipeline.py]; they are parameters, taken at their calling
      convention [(image, results, options)]. *)

From Stdlib Require Import Floats.PrimFloat.
From Stdlib Require Import String Ascii ZArith List Bool Arith Lia Permutation.
Import ListNotations.
Open Scope list_scope.
#[local] Set Warnings "-register-all".

(** ** Python strings *)

Module PyStr.

(** [sub in s] *)
Fixpoint contains (sub s : string) : bool :=
  if String.prefix sub s then true
  else match s with
       | EmptyString => false
       | String _ s' => contains sub s'
       end.

(** Normalisation of one bound of a slice over a sequence of length [len]:
    a negative bound counts from the end, and the result is clipped to
    [0..len]. *)
Definition clamp (len : nat) (i : Z) : nat :=
  if (i <? 0)%Z then Z.to_nat (Z.max 0 (i + Z.of_nat len))
  else Nat.min (Z.to_nat i) len.

Fixpoint find_at (sub s : string) (start i : nat) : Z :=
  if (start <=? i)%nat && String.prefix sub s then Z.of_nat i
  else match s with
       | EmptyString => (-1)%Z
       | String _ s' => find_at sub s' start (S i)
       end.

(** [s.find(sub, start)]: lowest index at or after [start] where [sub]
    occurs, [-1] when there is none ([sub] is a non-empty string at every
    call of the program). *)
Definition find (sub s : string) (start : Z) : Z :=
  find_at sub s (clamp (String.length s) start) 0.

Fixpoint rfind_at (sub s : string) (i : nat) : Z :=
  match s with
  | EmptyString => if String.prefix sub s then Z.of_nat i else (-1)%Z
  | String _ s' =>
      let r := rfind_at sub s' (S i) in
      if (0 <=? r)%Z then r
      else if String.prefix sub s then Z.of_nat i else (-1)%Z
  end.

(** [s.rfind(sub)]: highest index where [sub] occurs, [-1] when none. *)
Definition rfind (sub s : string) : Z := rfind_at sub s 0.

(** [s[a:b]] *)
Definition slice (s : string) (a b : Z) : string :=
  let lo := clamp (String.length s) a in
  let hi := clamp (String.length s) b in
  String.substring lo (hi - lo) s.

End PyStr.

(** ** Python dicts, insertion ordered *)

Definition pydict (V : Type) : Type := list (string * V).

Module PyDict.
Section Ops.
Context {V : Type}.

(** [d[k]] ([None] stands for KeyError), also [k in d] *)
Fixpoint get (k : string) (d : pydict V) : option V :=
  match d with
  | [] => None
  | (k', v) :: d' => if String.eqb k' k then Some v else get k d'
  end.

Definition mem (k : string) (d : pydict V) : bool :=
  match get k d with Some _ => true | None => false end.

(** [d[k] = v]: an existing key keeps its place, a new one goes last *)
Fixpoint set (k : string) (v : V) (d : pydict V) : pydict V :=
  match d with
  | [] => [(k, v)]
  | (k', v') :: d' =>
      if String.eqb k' k then (k', v) :: d' else (k', v') :: set k v d'
  end.

Definition keys (d : pydict V) : list string := map fst d.

(** [d.update(new)] *)
Definition update (d new : pydict V) : pydict V :=
  fold_left (fun acc kv => set (fst kv) (snd kv) acc) new d.

(** truth value of a dict: non-empty *)
Definition truthy (d : pydict V) : bool :=
  match d with [] => false | _ :: _ => true end.
End Ops.
End PyDict.

(** ** Values, exceptions, completions *)

Inductive exn : Type :=
| KeyError | IndexError | AssertionError | AttributeError | TypeError
| OverflowError.

(** How a call ends: with a value or with an exception nobody caught. *)
Inductive completion (A : Type) : Type :=
| Returns (a : A)
| Raises (e : exn).
Arguments Returns {A} a.
Arguments Raises {A} e.

(** Sequencing of calls that may raise. *)
Definition bind {A B : Type} (c : completion A) (k : A -> completion B)
  : completion B :=
  match c with
  | Returns a => k a
  | Raises e => Raises e
  end.

Notation "x <- c ;; k" := (bind c (fun x => k))
  (at level 61, c at next level, right associativity).

(** Option values.  [VOpaque] stands for any object the engine only passes
    through. *)
Inductive value : Type :=
| VNone
| VBool (b : bool)
| VInt (n : Z)
| VFloat (x : float)
| VStr (s : string)
| VList (l : list value)
| VOpaque (tag : nat).

Definition is_list (v : value) : bool :=
  match v with VList _ => true | _ => false end.

(** A two-dimensional numpy array: its shape and its element accessor. *)
Record ndarray : Type := {
  shape0 : nat;
  shape1 : nat;
  item : nat -> nat -> float
}.

(** What a registered step function does when called with
    [(dat, results, options)]: it raises, or returns a [str], or returns a
    pair [(dat', res)] whose second component can update a dict, or returns
    anything else ([None], a number, a tuple of another length, ...).  A
    step function is taken as a function of the three arguments it reads;
    writing into [results] or [options] in place is not part of the calling
    convention and is not modelled. *)
Inductive step_return : Type :=
| SRaise
| SStr (s : string)
| SPair (dat' : ndarray) (res : pydict value)
| SOther.

Definition step_fn : Type :=
  ndarray -> pydict value -> pydict value -> step_return.

(** The outcome of one image: the timers dict, or the integer [1]. *)
Inductive outcome : Type :=
| Success (timers : pydict float)
| Failure.

(** ** The pipeline object *)

Record Isophote_Pipeline : Type := {
  pipeline_methods : pydict step_fn;
  pipeline_steps : pydict (list string)
}.

Definition default_method_names : list string :=
  ["background"; "background dilatedsources"; "background unsharp";
   "background basic"; "psf"; "psf IRAF"; "center"; "center mean";
   "center forced"; "center 2DGaussian"; "center 1DGaussian";
   "center OfMass"; "isophoteinit"; "isophoteinit mean"; "isophotefit";
   "isophotefit mean"; "isophotefit forced"; "isophotefit photutils";
   "starmask"; "mask segmentation map"; "isophoteextract";
   "isophoteextract forced"; "checkfit"; "writeprof"; "ellipsemodel";
   "ellipsemodel general"; "radsample"; "orthsample"]%string.

Definition default_head : list string :=
  ["background"; "psf"; "center"; "isophoteinit"; "isophotefit";
   "isophoteextract"; "checkfit"; "writeprof"]%string.

(** [__init__]; [builtin n] is the imported function registered under [n]. *)
Definition init (builtin : string -> step_fn) : Isophote_Pipeline :=
  {| pipeline_methods := map (fun n => (n, builtin n)) default_method_names;
     pipeline_steps := [("head"%string, default_head)] |}.

(** ** Log lines and printed lines *)

(** The argument of [new_pipeline_steps]: a list, a dict, or something else
    of the given truth value. *)
Inductive steps_arg : Type :=
| StepsList (l : list string)
| StepsDict (d : pydict (list string))
| StepsOther (truth : bool).

Inductive message : Type :=
| MsgUpdatingMethods (names : list string)
| MsgNewSteps (arg : steps_arg)
| MsgCouldNotRead (name : string) (image_file : value)
| MsgChunkMissing (name : string)
| MsgStep (name key stepname : string) (at_sec : float)
| MsgStepError (name stepname : string)
| MsgFullTrace (name : string)
| MsgComplete (name : string) (at_sec : float)
| MsgAllFinished (at_sec : float)
| MsgAllFailed
| MsgAverage (stepname : string) (mean : float)
| MsgUnrecognizedMode.

Inductive event : Type :=
| LogInfo (m : message)
| LogError (m : message)
| Printed (m : message).

(** ** UpdatePipeline *)

Definition steps_truthy (a : steps_arg) : bool :=
  match a with
  | StepsList l => match l with [] => false | _ :: _ => true end
  | StepsDict d => PyDict.truthy d
  | StepsOther b => b
  end.

(** The object after the call, how the call ended, and what it logged. *)
Record updated : Type := {
  upd_self : Isophote_Pipeline;
  upd_end : completion unit;
  upd_log : list event
}.

Definition UpdatePipeline (self : Isophote_Pipeline)
    (new_pipeline_methods : option (pydict step_fn))
    (new_pipeline_steps : option steps_arg) : updated :=
  let '(self1, log1) :=
    match new_pipeline_methods with
    | Some m =>
        if PyDict.truthy m then
          ({| pipeline_methods := PyDict.update (pipeline_methods self) m;
              pipeline_steps := pipeline_steps self |},
           [LogInfo (MsgUpdatingMethods (PyDict.keys m))])
        else (self, [])
    | None => (self, [])
    end in
  match new_pipeline_steps with
  | Some a =>
      if steps_truthy a then
        let log2 := log1 ++ [LogInfo (MsgNewSteps a)] in
        match a with
        | StepsList l =>
            {| upd_self :=
                 {| pipeline_methods := pipeline_methods self1;
                    pipeline_steps :=
                      PyDict.set "head" l (pipeline_steps self1) |};
               upd_end := Returns tt; upd_log := log2 |}
        | StepsDict d =>
            if PyDict.mem "head" d then
              {| upd_self := {| pipeline_methods := pipeline_methods self1;
                                pipeline_steps := d |};
                 upd_end := Returns tt; upd_log := log2 |}
            else
              {| upd_self := self1; upd_end := Raises AssertionError;
                 upd_log := log2 |}
        | StepsOther _ =>
            {| upd_self := self1; upd_end := Returns tt; upd_log := log2 |}
        end
      else {| upd_self := self1; upd_end := Returns tt; upd_log := log1 |}
  | None => {| upd_self := self1; upd_end := Returns tt; upd_log := log1 |}
  end.

(** ** Process_Image *)

(** [Read_Image(image_file, options)] either raises or returns the payload,
    which may be [None]. *)
Inductive read_result : Type :=
| ReadRaises
| ReadReturns (payload : option ndarray).

(** What one call of [Process_Image] leaves behind: how it ended, the lines
    it logged and printed, and (ghost) the names of the step functions it
    called, in order. *)
Record image_run : Type := {
  returned : completion outcome;
  run_log : list event;
  run_calls : list string
}.

(** The job name derived from the file name (lines 117-118). *)
Definition derive_name (image_file : string) : string :=
  let startat :=
    if PyStr.contains "/" image_file then PyStr.rfind "/" image_file
    else 0%Z in
  PyStr.slice image_file startat (PyStr.find "." image_file startat).

(** Lines 116-118: the name and the options after [options['name']] is
    set.  A missing [image_file] is a KeyError; one that is not a [str] has
    no [rfind]/[find] (a list) or cannot be searched with [in]. *)
Definition resolve_name (options : pydict value)
  : completion (string * pydict value) :=
  match PyDict.get "name" options with
  | Some (VStr n) => Returns (n, options)
  | _ =>
      match PyDict.get "image_file" options with
      | None => Raises KeyError
      | Some (VStr f) =>
          Returns (derive_name f,
                   PyDict.set "name" (VStr (derive_name f)) options)
      | Some (VList _) => Raises AttributeError
      | Some _ => Raises TypeError
      end
  end.

(** The indices selected by [int(len/2.)-10 : int(len/2.)+10] on an axis of
    length [len]; [int(len/2.)] is the integer quotient for every length
    below 2^53, and a negative lower bound counts from the end, as numpy
    slices do. *)
Definition window (len : nat) : list nat :=
  let mid := (Z.of_nat len / 2)%Z in
  let lo := PyStr.clamp len (mid - 10) in
  let hi := PyStr.clamp len (mid + 10) in
  seq lo (hi - lo).

(** [np.all(dat[...-10:...+10, ...-10:...+10] == 0)] *)
Definition chunk_missing (dat : ndarray) : bool :=
  forallb (fun i =>
     forallb (fun j => PrimFloat.eqb (item dat i j) PrimFloat.zero)
             (window (shape1 dat)))
    (window (shape0 dat)).

(** The locals of the loop, the number of clock readings taken so far, the
    lines written so far and the calls made so far. *)
Record run_state : Type := {
  key : string;
  step : nat;
  dat : ndarray;
  results : pydict value;
  timers : pydict float;
  clk : nat;
  log : list event;
  calls : list string
}.

Definition emit (es : list event) (st : run_state) : run_state :=
  {| key := key st; step := step st; dat := dat st; results := results st;
     timers := timers st; clk := clk st; log := log st ++ es;
     calls := calls st |}.

Definition read_clock (n : nat) (st : run_state) : run_state :=
  {| key := key st; step := step st; dat := dat st; results := results st;
     timers := timers st; clk := clk st + n; log := log st;
     calls := calls st |}.

Definition called (stepname : string) (st : run_state) : run_state :=
  {| key := key st; step := step st; dat := dat st; results := results st;
     timers := timers st; clk := clk st; log := log st;
     calls := calls st ++ [stepname] |}.

Definition goto (k : string) (i : nat) (st : run_state) : run_state :=
  {| key := k; step := i; dat := dat st; results := results st;
     timers := timers st; clk := clk st; log := log st;
     calls := calls st |}.

Definition stored (dat' : ndarray) (results' : pydict value)
    (timers' : pydict float) (st : run_state) : run_state :=
  {| key := key st; step := step st; dat := dat'; results := results';
     timers := timers'; clk := clk st; log := log st; calls := calls st |}.

(** One pass through the [while]: the guard, then the body. *)
Inductive tick_result : Type :=
| Continue (st : run_state)          (* back to the guard *)
| Exit (st : run_state)              (* the guard is false *)
| Fault (st : run_state)             (* the except clause: [return 1] *)
| Uncaught (e : exn) (st : run_state).

Inductive loop_end : Type :=
| Completed (st : run_state)
| Faulted (st : run_state)
| Crashed (e : exn) (st : run_state).

Section Loop.
Variable self : Isophote_Pipeline.
Variable clock : nat -> float.        (* the n-th reading of [time()] *)
Variable options : pydict value.
Variable name : string.               (* [options['name']] *)
Variable start : float.

(** The except clause (lines 158-161). *)
Definition handler (stepname : string) (st : run_state) : run_state :=
  emit [LogError (MsgStepError name stepname); LogError (MsgFullTrace name)]
       st.

(** Lines 143-144: the line logged and printed at the start of a pass;
    each reads the clock once. *)
Definition announce (stepname : string) (st : run_state) : run_state :=
  read_clock 2
    (emit [LogInfo (MsgStep name (key st) stepname
                      (PrimFloat.sub (clock (clk st)) start));
           Printed (MsgStep name (key st) stepname
                    (PrimFloat.sub (clock (S (clk st))) start))]
          st).

Definition tick (st : run_state) : tick_result :=
  match PyDict.get (key st) (pipeline_steps self) with
  | None => Uncaught KeyError st
  | Some sequence =>
      if (step st <? length sequence)%nat then
        let stepname := nth (step st) sequence ""%string in
        let st1 := announce stepname st in
        if PyStr.contains "branch" stepname then
          match PyDict.get stepname (pipeline_methods self) with
          | None => Fault (handler stepname st1)
          | Some f =>
              let st2 := called stepname st1 in
              match f (dat st) (results st) options with
              | SRaise => Fault (handler stepname st2)
              | SStr decision => Continue (goto decision 0 st2)
              | SPair _ _ | SOther =>
                  Continue (goto (key st) (S (step st)) st2)
              end
          end
        else
          let step_start := clock (clk st1) in
          match PyDict.get stepname (pipeline_methods self) with
          | None => Fault (handler stepname (read_clock 1 st1))
          | Some f =>
              let st2 := called stepname (read_clock 1 st1) in
              match f (dat st) (results st) options with
              | SPair dat' res =>
                  Continue
                    (goto (key st) (S (step st))
                       (read_clock 1
                          (stored dat'
                             (PyDict.update (results st) res)
                             (PyDict.set stepname
                                (PrimFloat.sub (clock (clk st2)) step_start)
                                (timers st))
                             st2)))
              | SRaise | SStr _ | SOther => Fault (handler stepname st2)
              end
          end
      else Exit st
  end.

Fixpoint run_loop (fuel : nat) (st : run_state) : option loop_end :=
  match fuel with
  | O => None
  | S fuel' =>
      match tick st with
      | Continue st' => run_loop fuel' st'
      | Exit st' => Some (Completed st')
      | Fault st' => Some (Faulted st')
      | Uncaught e st' => Some (Crashed e st')
      end
  end.
End Loop.

(** The state at line 140: [key = 'head'], [step = 0], empty [timers] and
    [results], one clock reading taken ([start]). *)
Definition initial_state (dat0 : ndarray) : run_state :=
  {| key := "head"; step := 0; dat := dat0; results := []; timers := [];
     clk := 1; log := []; calls := [] |}.

Definition ended (r : completion outcome) (l : list event)
    (c : list string) : image_run :=
  {| returned := r; run_log := l; run_calls := c |}.

Section Engine.
Variable Read_Image : value -> pydict value -> read_result.

(** [Process_Image]; the seeding of numpy's generator (lines 109-113)
    has no effect on what follows and is left out.  The caller's dict is
    mutated by line 118; the loop sees the mutated one. *)
Definition Process_Image (self : Isophote_Pipeline) (clock : nat -> float)
    (fuel : nat) (options : pydict value) : option image_run :=
  match resolve_name options with
  | Raises e => Some (ended (Raises e) [] [])
  | Returns (name, options1) =>
      match PyDict.get "image_file" options1 with
      | None =>
          (* KeyError in the try, and again in the except clause *)
          Some (ended (Raises KeyError) [] [])
      | Some image_file =>
          match Read_Image image_file options1 with
          | ReadRaises =>
              Some (ended (Returns Failure)
                      [LogError (MsgCouldNotRead name image_file)] [])
          | ReadReturns None =>
              Some (ended (Returns Failure)
                      [LogError (MsgChunkMissing name)] [])
          | ReadReturns (Some dat0) =>
              if (shape0 dat0 =? 0)%nat then
                (* [dat[0]] of an array without rows *)
                Some (ended (Raises IndexError) [] [])
              else if chunk_missing dat0 then
                Some (ended (Returns Failure)
                        [LogError (MsgChunkMissing name)] [])
              else
                let start := clock 0 in
                match run_loop self clock options1 name start fuel
                        (initial_state dat0) with
                | None => None
                | Some (Completed st) =>
                    Some (ended (Returns (Success (timers st)))
                            (log st ++
                             [Printed (MsgComplete name
                                (PrimFloat.sub (clock (clk st)) start));
                              LogInfo (MsgComplete name
                                (PrimFloat.sub (clock (S (clk st))) start))])
                            (calls st))
                | Some (Faulted st) =>
                    Some (ended (Returns Failure) (log st) (calls st))
                | Some (Crashed e st) =>
                    Some (ended (Raises e) (log st) (calls st))
                end
          end
      end
  end.
End Engine.

(** ** Process_List *)

(** What [Process_List] returns: nothing (the bare [return] of line 215) or
    the list [res]. *)
Inductive batch_return : Type :=
| NoValue
| Outcomes (res : list outcome).

(** How the call ended, the lines it logged itself, and the runs of
    [Process_Image] it made, in input order. *)
Record batch_run : Type := {
  batch_returned : completion batch_return;
  batch_log : list event;
  batch_jobs : list image_run
}.

(** Lines 181-186 for one index [i]: the loop over the keys of [options],
    filling [tmp_options]; a dict has each key once, so [options[k]] is the
    value listed with [k].  A list shorter than [i + 1] raises. *)
Fixpoint index_options (i : nat) (todo tmp_options : pydict value)
  : completion (pydict value) :=
  match todo with
  | [] => Returns tmp_options
  | (k, VList l) :: todo' =>
      match nth_error l i with
      | Some x => index_options i todo' (PyDict.set k x tmp_options)
      | None => Raises IndexError
      end
  | (k, v) :: todo' => index_options i todo' (PyDict.set k v tmp_options)
  end.

(** Lines 179-187: the loop over [range(len(options['image_file']))]. *)
Fixpoint each_index (options : pydict value) (indices : list nat)
  : completion (list (pydict value)) :=
  match indices with
  | [] => Returns []
  | i :: rest =>
      tmp_options <- index_options i options [] ;;
      use_options <- each_index options rest ;;
      Returns (tmp_options :: use_options)
  end.

(** Lines 176-187.  The first arm hands the same dict to every job; it is
    never taken once [options['image_file']] is a list, as line 172
    asserts. *)
Definition broadcast (options : pydict value) (n : nat)
  : completion (list (pydict value)) :=
  if forallb (fun kv => negb (is_list (snd kv))) options
  then Returns (repeat options n)
  else each_index options (seq 0 n).

(** [options['n_procs'] > 1], then [int(options['n_procs'])] when it is. *)
Definition more_than_one (n_procs : value) : completion bool :=
  match n_procs with
  | VInt n => Returns (1 <? n)%Z
  | VBool _ => Returns false
  | VFloat x =>
      if PrimFloat.ltb PrimFloat.one x then
        if PrimFloat.eqb x PrimFloat.infinity then Raises OverflowError
        else Returns true
      else Returns false
  | _ => Raises TypeError
  end.

(** The results of the jobs, in input order; the exception of the first job
    that raised, if one did. *)
Fixpoint gather (runs : list image_run) : completion (list outcome) :=
  match runs with
  | [] => Returns []
  | r :: rest =>
      o <- returned r ;;
      res <- gather rest ;;
      Returns (o :: res)
  end.

(** Lines 206-212 for one timers dict [r]: the loop over [r.keys()]. *)
Fixpoint add_timers (r : pydict float) (timers counts : pydict float)
  : completion (pydict float * pydict float) :=
  match r with
  | [] => Returns (timers, counts)
  | (s, x) :: r' =>
      match PyDict.get s timers with
      | Some total =>
          match PyDict.get s counts with
          | Some c =>
              add_timers r' (PyDict.set s (PrimFloat.add total x) timers)
                (PyDict.set s (PrimFloat.add c PrimFloat.one) counts)
          | None => Raises KeyError
          end
      | None =>
          add_timers r' (PyDict.set s x timers)
            (PyDict.set s PrimFloat.one counts)
      end
  end.

(** Lines 203-212: the loop over [res]. *)
Fixpoint sum_timers (res : list outcome) (timers counts : pydict float)
  : completion (pydict float * pydict float) :=
  match res with
  | [] => Returns (timers, counts)
  | Failure :: res' => sum_timers res' timers counts
  | Success r :: res' =>
      tc <- add_timers r timers counts ;;
      sum_timers res' (fst tc) (snd tc)
  end.

(** Lines 216-218: the loop [for s in timers], over the keys [todo];
    returns the divided [timers] and the lines logged. *)
Fixpoint average_timers (todo : list string) (timers counts : pydict float)
  : completion (pydict float * list event) :=
  match todo with
  | [] => Returns (timers, [])
  | s :: todo' =>
      match PyDict.get s timers, PyDict.get s counts with
      | Some total, Some c =>
          let mean := PrimFloat.div total c in
          tl <- average_timers todo' (PyDict.set s mean timers) counts ;;
          Returns (fst tl, LogInfo (MsgAverage s mean) :: snd tl)
      | _, _ => Raises KeyError
      end
  end.

(** Lines 172-192 up to the choice of the execution mode: the images, the
    per-image options and whether a pool is used. *)
Definition prepare (options : pydict value)
  : completion (list value * list (pydict value) * bool) :=
  match PyDict.get "image_file" options with
  | None => Raises KeyError
  | Some (VList image_file) =>
      use_options <- broadcast options (length image_file) ;;
      match PyDict.get "n_procs" options with
      | None => Raises KeyError
      | Some n_procs =>
          parallel <- more_than_one n_procs ;;
          Returns (image_file, use_options, parallel)
      end
  | Some _ => Raises AssertionError
  end.

(** Lines 200-221: the report on the list [res]. *)
Definition report (elapsed : float) (res : list outcome)
  : completion batch_return * list event :=
  let log1 := [LogInfo (MsgAllFinished elapsed)] in
  match sum_timers res [] [] with
  | Raises e => (Raises e, log1)
  | Returns (timers, counts) =>
      if (length timers =? 0)%nat then
        (Returns NoValue, log1 ++ [LogError MsgAllFailed])
      else
        match average_timers (PyDict.keys timers) timers counts with
        | Raises e => (Raises e, log1)
        | Returns (_, lines) => (Returns (Outcomes res), log1 ++ lines)
        end
  end.

Section Batch.
Variable Read_Image : value -> pydict value -> read_result.
Variable self : Isophote_Pipeline.
Variable job_clock : nat -> nat -> float.   (* the clock as job [i] reads it *)
Variable fuel : nat.

(** [list(map(self.Process_Image, use_options))]: the jobs run one after
    the other from index [i] on, and a job that raises ends the map. *)
Fixpoint map_sequential (i : nat) (use_options : list (pydict value))
  : option (list image_run) :=
  match use_options with
  | [] => Some []
  | o :: rest =>
      match Process_Image Read_Image self (job_clock i) fuel o with
      | None => None
      | Some r =>
          match returned r with
          | Raises _ => Some [r]
          | Returns _ =>
              match map_sequential (S i) rest with
              | None => None
              | Some runs => Some (r :: runs)
              end
          end
      end
  end.

(** [pool.map(self.Process_Image, use_options, chunksize)]: every job
    runs, on some worker; the pool hands the results back in input order
    whatever the order of completion, and [chunksize] only decides which
    worker takes which jobs. *)
Fixpoint pool_map (chunksize : nat) (i : nat)
    (use_options : list (pydict value)) : option (list image_run) :=
  match use_options with
  | [] => Some []
  | o :: rest =>
      match Process_Image Read_Image self (job_clock i) fuel o with
      | None => None
      | Some r =>
          match pool_map chunksize (S i) rest with
          | None => None
          | Some runs => Some (r :: runs)
          end
      end
  end.

Definition Process_List (clock : nat -> float) (options : pydict value)
  : option batch_run :=
  match prepare options with
  | Raises e =>
      Some {| batch_returned := Raises e; batch_log := [];
              batch_jobs := [] |}
  | Returns (image_file, use_options, parallel) =>
      let start := clock 0 in
      let jobs :=
        if parallel then
          pool_map (if (100 <? length image_file)%nat then 5 else 1) 0
                   use_options
        else map_sequential 0 use_options in
      match jobs with
      | None => None
      | Some runs =>
          match gather runs with
          | Raises e =>
              Some {| batch_returned := Raises e; batch_log := [];
                      batch_jobs := runs |}
          | Returns res =>
              let '(r, l) := report (PrimFloat.sub (clock 1) start) res in
              Some {| batch_returned := r; batch_log := l;
                      batch_jobs := runs |}
          end
      end
  end.
End Batch.

(** ** Process_ConfigFile *)

(** The imported configuration module [c]: its [process_mode] and the two
    optional attributes ([None] when the attribute is absent, in which case
    the AttributeError is swallowed by [except: pass], or is [None]). *)
Record config : Type := {
  process_mode : string;
  new_pipeline_methods : option (pydict step_fn);
  new_pipeline_steps : option steps_arg
}.

(** Lines 234-241: the module name taken from the path of the file. *)
Definition config_module_name (config_file : string) : string :=
  let startat :=
    if PyStr.contains "/" config_file
    then (PyStr.rfind "/" config_file + 1)%Z else 0%Z in
  if PyStr.contains "." config_file
  then PyStr.slice config_file startat (PyStr.find "." config_file startat)
  else PyStr.slice config_file startat (Z.of_nat (String.length config_file)).

Definition forced_head : list string :=
  ["background"; "psf"; "center forced"; "isophoteinit";
   "isophotefit forced"; "isophoteextract forced"; "writeprof"]%string.

(** Lines 250-261: the three updates; the last two sit in [try/except:
    pass], so a raise of theirs is dropped and the object stays as the call
    left it. *)
Definition configure (self : Isophote_Pipeline) (c : config)
  : completion Isophote_Pipeline * list event :=
  let u1 :=
    if PyStr.contains "forced" (process_mode c)
    then UpdatePipeline self None (Some (StepsList forced_head))
    else {| upd_self := self; upd_end := Returns tt; upd_log := [] |} in
  match upd_end u1 with
  | Raises e => (Raises e, upd_log u1)
  | Returns _ =>
      let u2 := UpdatePipeline (upd_self u1) (new_pipeline_methods c) None in
      let u3 := UpdatePipeline (upd_self u2) None (new_pipeline_steps c) in
      (Returns (upd_self u3), upd_log u1 ++ upd_log u2 ++ upd_log u3)
  end.

(** What [Process_ConfigFile] hands back: the value of [Process_Image]
    (also the bare [1] of line 271) or the value of [Process_List]. *)
Inductive config_return : Type :=
| OfImage (o : outcome)
| OfList (b : batch_return).

Record config_run : Type := {
  cfg_self : Isophote_Pipeline;
  cfg_returned : completion config_return;
  cfg_log : list event
}.

Section ConfigFile.
Variable Read_Image : value -> pydict value -> read_result.
Variable GetOptions : config -> pydict value.
Variable clock : nat -> float.
Variable job_clock : nat -> nat -> float.
Variable fuel : nat.

(** [Process_ConfigFile], from the imported module [c] on (the import
    itself, lines 233-248, is the interpreter's).  The log of a list run is
    given with the lines of the jobs in input order, before the lines of
    the report. *)
Definition Process_ConfigFile (self : Isophote_Pipeline) (c : config)
  : option config_run :=
  match configure self c with
  | (Raises e, l) =>
      Some {| cfg_self := self; cfg_returned := Raises e; cfg_log := l |}
  | (Returns self', l) =>
      let use_options := GetOptions c in
      let mode := process_mode c in
      if String.eqb mode "image" || String.eqb mode "forced image" then
        match Process_Image Read_Image self' clock fuel use_options with
        | None => None
        | Some r =>
            Some {| cfg_self := self';
                    cfg_returned := (o <- returned r ;; Returns (OfImage o));
                    cfg_log := l ++ run_log r |}
        end
      else if String.eqb mode "image list"
              || String.eqb mode "forced image list" then
        match Process_List Read_Image self' job_clock fuel clock
                use_options with
        | None => None
        | Some b =>
            Some {| cfg_self := self';
                    cfg_returned :=
                      (v <- batch_returned b ;; Returns (OfList v));
                    cfg_log :=
                      l ++ concat (map run_log (batch_jobs b))
                        ++ batch_log b |}
        end
      else
        Some {| cfg_self := self'; cfg_returned := Returns (OfImage Failure);
                cfg_log := l ++ [LogError MsgUnrecognizedMode] |}
  end.
End ConfigFile.

(** ** Notions the properties are stated with *)

(** The forced sequence as the specification words it: background, point
    spread estimate, forced centre, forced isophote fit, forced extraction,
    writer. *)
Definition spec_forced_sequence : list string :=
  ["background"; "psf"; "center forced"; "isophotefit forced";
   "isophoteextract forced"; "writeprof"]%string.

(** Of the calls a run made, those dispatched as regular steps. *)
Definition regular_calls (names : list string) : list string :=
  filter (fun n => negb (PyStr.contains "branch" n)) names.

(** [k] passes through the loop body, each one going back to the guard. *)
Fixpoint advance (self : Isophote_Pipeline) (clock : nat -> float)
    (options : pydict value) (name : string) (start : float)
    (k : nat) (st : run_state) : option run_state :=
  match k with
  | O => Some st
  | S k' =>
      match tick self clock options name start st with
      | Continue st' => advance self clock options name start k' st'
      | _ => None
      end
  end.

(** The pixels of the frame that lie in the 20 x 20 window centred on the
    midpoint are all zero. *)
Definition center_window_zero (a : ndarray) : Prop :=
  forall i j : nat,
    (i < shape0 a)%nat -> (j < shape1 a)%nat ->
    (Z.of_nat (shape0 a) / 2 - 10 <= Z.of_nat i
       < Z.of_nat (shape0 a) / 2 + 10)%Z ->
    (Z.of_nat (shape1 a) / 2 - 10 <= Z.of_nat j
       < Z.of_nat (shape1 a) / 2 + 10)%Z ->
    PrimFloat.eqb (item a i j) PrimFloat.zero = true.

(** The jobs on [use_options], numbered from [i], return the outcomes
    [outs], one each. *)
Fixpoint jobs_return (Read_Image : value -> pydict value -> read_result)
    (self : Isophote_Pipeline) (job_clock : nat -> nat -> float)
    (fuel : nat) (i : nat) (use_options : list (pydict value))
    (outs : list outcome) : Prop :=
  match use_options, outs with
  | [], [] => True
  | o :: use_options', out :: outs' =>
      (exists r, Process_Image Read_Image self (job_clock i) fuel o = Some r
                 /\ returned r = Returns out)
      /\ jobs_return Read_Image self job_clock fuel (S i) use_options' outs'
  | _, _ => False
  end.

(** [Timing[X]] over the successes whose Timing has the key [X], in input
    order. *)
Definition timings_of (X : string) (res : list outcome) : list float :=
  flat_map (fun o =>
              match o with
              | Success t =>
                  match PyDict.get X t with Some x => [x] | None => [] end
              | Failure => []
              end) res.

(** The count [n + 1] as the float [1. + 1. + ... + 1.]. *)
Fixpoint float_count (n : nat) : float :=
  match n with
  | O => PrimFloat.one
  | S n' => PrimFloat.add (float_count n') PrimFloat.one
  end.

(** The arithmetic mean of a non-empty list of floats: the sum, taken from
    left to right, over the count. *)
Definition arithmetic_mean (l : list float) : option float :=
  match l with
  | [] => None
  | x :: xs =>
      Some (PrimFloat.div (fold_left PrimFloat.add xs x)
                          (float_count (length xs)))
  end.

(** The per-step means a log reports, as a dict. *)
Fixpoint reported_means (l : list event) : pydict float :=
  match l with
  | [] => []
  | LogInfo (MsgAverage s m) :: l' => (s, m) :: reported_means l'
  | _ :: l' => reported_means l'
  end.

(** A log without error lines. *)
Definition no_error (l : list event) : Prop :=
  forall m, ~ In (LogError m) l.

(** The keys of [timers] are, without repetition, the names of the regular
    calls made so far. *)
Definition timers_track (st : run_state) : Prop :=
  NoDup (PyDict.keys (timers st))
  /\ forall k, In k (PyDict.keys (timers st))
               <-> In k (regular_calls (calls st)).

(** The running sum and the running count of the values seen for one key. *)
Definition fsum (l : list float) : option float :=
  match l with
  | [] => None
  | x :: xs => Some (fold_left PrimFloat.add xs x)
  end.

Definition fcount (l : list float) : option float :=
  match l with
  | [] => None
  | _ :: xs => Some (float_count (length xs))
  end.

(** [timers] and [counts] hold, key by key, the sum and the count of the
    values [h] lists for the key. *)
Definition tracks (timers counts : pydict float)
    (h : string -> list float) : Prop :=
  NoDup (PyDict.keys timers)
  /\ forall X, PyDict.get X timers = fsum (h X)
               /\ PyDict.get X counts = fcount (h X).

(** What index [i] picks from one option value. *)
Definition pick (i : nat) (v : value) : option value :=
  match v with
  | VList l => nth_error l i
  | _ => Some v
  end.

(** ** Fixtures for the worked examples *)

Module Fixture.
Definition one_pixel : ndarray :=
  {| shape0 := 1; shape1 := 1; item := fun _ _ => PrimFloat.one |}.

(** A 100 x 100 frame of ones with a 40 x 40 block of zeros at its
    centre. *)
Definition holed : ndarray :=
  {| shape0 := 100; shape1 := 100;
     item := fun i j =>
       if (30 <=? i)%nat && (i <? 70)%nat && (30 <=? j)%nat && (j <? 70)%nat
       then PrimFloat.zero else PrimFloat.one |}.

Definition reads (a : ndarray) : value -> pydict value -> read_result :=
  fun _ _ => ReadReturns (Some a).

Definition unreadable : value -> pydict value -> read_result :=
  fun _ _ => ReadRaises.

(** A regular step: the image unchanged and no new results. *)
Definition pass : step_fn := fun dat _ _ => SPair dat [].

(** A branch function that always redirects to [target]. *)
Definition jump (target : string) : step_fn := fun _ _ _ => SStr target.

(** A branch function that never redirects. *)
Definition stay : step_fn := fun _ _ _ => SOther.

(** A clock that advances by one second at every reading. *)
Fixpoint tick_clock (n : nat) : float :=
  match n with
  | O => PrimFloat.zero
  | S n' => PrimFloat.add (tick_clock n') PrimFloat.one
  end.

Definition options_for (image_file : string) : pydict value :=
  [("image_file"%string, VStr image_file)].

Definition twice : Isophote_Pipeline :=
  {| pipeline_methods := [("background"%string, pass)];
     pipeline_steps := [("head"%string, ["background"; "background"]%string)] |}.

Definition lost : Isophote_Pipeline :=
  {| pipeline_methods := [("branch away"%string, jump "nowhere")];
     pipeline_steps := [("head"%string, ["branch away"]%string)] |}.

Definition forked : Isophote_Pipeline :=
  {| pipeline_methods :=
       [("background"%string, pass); ("branch check"%string, jump "tail");
        ("branch skip"%string, stay); ("writeprof"%string, pass)];
     pipeline_steps :=
       [("head"%string, ["background"; "branch skip"; "branch check"]%string);
        ("tail"%string, ["writeprof"]%string)] |}.

(** A regular function under a name with "branch" in it, and a branch
    function under a name without. *)
Definition mislabeled : Isophote_Pipeline :=
  {| pipeline_methods :=
       [("branch background"%string, pass); ("check"%string, jump "tail")];
     pipeline_steps :=
       [("head"%string, ["branch background"; "check"]%string);
        ("tail"%string, ["writeprof"]%string)] |}.

Definition at_step (i : nat) : run_state :=
  {| key := "head"; step := i; dat := one_pixel; results := [];
     timers := []; clk := 1; log := []; calls := [] |}.

Definition batch_options (files : list string) : pydict value :=
  [("image_file"%string, VList (map VStr files));
   ("n_procs"%string, VInt 1)].

(** Every file can be read but [bad]. *)
Definition reads_except (bad : string)
  : value -> pydict value -> read_result :=
  fun image_file _ =>
    match image_file with
    | VStr f =>
        if String.eqb f bad then ReadRaises else ReadReturns (Some one_pixel)
    | _ => ReadRaises
    end.

Definition job_clock : nat -> nat -> float := fun _ => tick_clock.

Definition three_files : list string := ["a.fits"; "b.fits"; "c.fits"]%string.

(** The per-image options of [batch_options three_files]. *)
Definition three_options : list (pydict value) :=
  map (fun f => [("image_file"%string, VStr f); ("n_procs"%string, VInt 1)])
      three_files.

(** The outcomes of [three_files] under [forked] when "b.fits" cannot be
    read: each timed step took one reading of [tick_clock]. *)
Definition three_outcomes : list outcome :=
  [Success [("background"%string, PrimFloat.one);
            ("writeprof"%string, PrimFloat.one)];
   Failure;
   Success [("background"%string, PrimFloat.one);
            ("writeprof"%string, PrimFloat.one)]].
End Fixture.

(** ** The IRAF point-spread step (PSF.py, lines 21-98) *)

(** What ['%.4e' %] accepts: a real number. *)
Definition is_real (v : value) : bool :=
  match v with
  | VInt _ | VFloat _ | VBool _ => true
  | _ => false
  end.

(** [PSF_IRAF(IMG, results, options)], a regular step function.  With
    'ap_set_psf' in [options] the function formats its log line from
    [options['ap_name']] (a KeyError when absent) and the value (a TypeError
    unless it is a real number; [VOpaque] is taken as not a number), and
    returns the image with the one result.  Without it, whatever the guess
    (lines 64-69) and the background (line 75) are, line 78 reads the name
    [psf_guess], which is bound nowhere in the module: every path that does
    not raise earlier raises there.  The lines the function logs itself are
    outside [step_return]. *)
Definition PSF_IRAF : step_fn :=
  fun IMG results options =>
    match PyDict.get "ap_set_psf" options with
    | Some v =>
        match PyDict.get "ap_name" options with
        | Some _ =>
            if is_real v then SPair IMG [("psf fwhm"%string, v)] else SRaise
        | None => SRaise
        end
    | None => SRaise
    end.

(** ** Further notions *)

(** Lines 116-130 let the image [dat0] through to the loop, under the job
    name [name] and with the options [options1]. *)
Definition starts (Read_Image : value -> pydict value -> read_result)
    (options : pydict value) (name : string) (options1 : pydict value)
    (dat0 : ndarray) : Prop :=
  resolve_name options = Returns (name, options1)
  /\ exists image_file,
       PyDict.get "image_file" options1 = Some image_file
       /\ Read_Image image_file options1 = ReadReturns (Some dat0)
       /\ shape0 dat0 <> 0
       /\ chunk_missing dat0 = false.


(** A log with an error line. *)
Definition has_error (l : list event) : Prop :=
  exists m, In (LogError m) l.

Module Sample.
(** A frame of ones, 30 x 30. *)
Definition frame : ndarray :=
  {| shape0 := 30; shape1 := 30; item := fun _ _ => PrimFloat.one |}.

(** A frame of ones, 19 x 30, but for zeros in its last row. *)
Definition low_frame : ndarray :=
  {| shape0 := 19; shape1 := 30;
     item := fun i _ => if (i =? 18)%nat then PrimFloat.zero
                        else PrimFloat.one |}.

Definition fails : step_fn := fun _ _ _ => SRaise.

Definition measures (k : string) (v : value) : step_fn :=
  fun dat _ _ => SPair dat [(k, v)].


(** A branch step that sends the run back to the start of "head". *)
Definition circling : Isophote_Pipeline :=
  {| pipeline_methods := [("branch again"%string, Fixture.jump "head")];
     pipeline_steps := [("head"%string, ["branch again"]%string)] |}.

(** Only a branch step that does not redirect. *)
Definition untimed : Isophote_Pipeline :=
  {| pipeline_methods := [("branch skip"%string, Fixture.stay)];
     pipeline_steps := [("head"%string, ["branch skip"]%string)] |}.


Definition at_head (results0 : pydict value) : run_state :=
  {| key := "head"; step := 0; dat := Fixture.one_pixel; results := results0;
     timers := []; clk := 1; log := []; calls := [] |}.
End Sample.

(** * Properties *)

(** ** Strings *)

Lemma prefix_iff (sub s : string) :
  String.prefix sub s = true <-> exists post, s = (sub ++ post)%string.
Proof.
  revert s; induction sub as [|c sub IH]; intros s; simpl.
  - split; [intros _; now exists s | intros _; now destruct s].
  - destruct s as [|c' s]; simpl.
    + split; [discriminate | intros [post H]; discriminate].
    + destruct (Ascii.ascii_dec c c') as [->|Hne].
      * rewrite IH. split; intros [post H]; exists post; congruence.
      * split; [discriminate | intros [post H]; congruence].
Qed.

Lemma contains_nil (sub : string) :
  PyStr.contains sub "" = String.prefix sub "".
Proof. cbn [PyStr.contains]. now destruct (String.prefix sub ""). Qed.

Lemma contains_cons (sub : string) (c : ascii) (s : string) :
  PyStr.contains sub (String c s)
  = String.prefix sub (String c s) || PyStr.contains sub s.
Proof.
  cbn [PyStr.contains]. now destruct (String.prefix sub (String c s)).
Qed.

Lemma contains_iff (sub s : string) :
  PyStr.contains sub s = true
  <-> exists pre post, s = (pre ++ sub ++ post)%string.
Proof.
  induction s as [|c s IH].
  - rewrite contains_nil, prefix_iff. split.
    + intros [post H]. now exists ""%string, post.
    + intros (pre & post & H). destruct pre; [|discriminate]. eauto.
  - rewrite contains_cons, orb_true_iff, IH, prefix_iff. split.
    + intros [[post H]|(pre & post & ->)].
      * now exists ""%string, post.
      * now exists (String c pre), post.
    + intros (pre & post & H). destruct pre as [|c' pre]; simpl in H.
      * left; eauto.
      * right. injection H as _ ->. eauto.
Qed.

Lemma length_append (a b : string) :
  String.length (a ++ b)%string = String.length a + String.length b.
Proof. induction a as [|c a IH]; simpl; [reflexivity | now rewrite IH]. Qed.

Lemma prefix_char (c x : ascii) (t : string) :
  String.prefix (String c "") (String x t)
  = if Ascii.ascii_dec c x then true else false.
Proof. simpl. destruct (Ascii.ascii_dec c x); [now destruct t | reflexivity]. Qed.

Lemma substring_all (b c : string) :
  String.substring 0 (String.length b) (b ++ c)%string = b.
Proof.
  induction b as [|x b IH]; simpl; [now destruct c | now rewrite IH].
Qed.

Lemma substring_middle (a b c : string) :
  String.substring (String.length a) (String.length b) (a ++ b ++ c)%string
  = b.
Proof.
  induction a as [|x a IH]; simpl; [apply substring_all | exact IH].
Qed.

Lemma rfind_at_absent (sub s : string) (i : nat) :
  PyStr.contains sub s = false -> PyStr.rfind_at sub s i = (-1)%Z.
Proof.
  revert i. induction s as [|x s IH]; intros i.
  - rewrite contains_nil. cbn [PyStr.rfind_at]. now intros ->.
  - rewrite contains_cons, orb_false_iff. intros [Hp Hc].
    cbn [PyStr.rfind_at]. rewrite (IH _ Hc), Hp. reflexivity.
Qed.

(** The last occurrence of a character. *)
Lemma rfind_at_last (c : ascii) (pre post : string) (i : nat) :
  PyStr.contains (String c "") post = false ->
  PyStr.rfind_at (String c "") (pre ++ String c post) i
  = Z.of_nat (i + String.length pre).
Proof.
  intros Hpost. revert i. induction pre as [|x pre IH]; intros i.
  - cbn [append PyStr.rfind_at]. rewrite (rfind_at_absent _ _ _ Hpost).
    rewrite prefix_char. destruct (Ascii.ascii_dec c c); [|congruence].
    simpl. now rewrite Nat.add_0_r.
  - cbn [append PyStr.rfind_at]. rewrite IH.
    destruct (0 <=? Z.of_nat (S i + String.length pre))%Z eqn:E;
      [|apply Z.leb_gt in E; lia].
    simpl. f_equal. lia.
Qed.

(** A search that starts after [a] skips [a]. *)
Lemma find_at_skip (sub a rest : string) (i : nat) :
  PyStr.find_at sub (a ++ rest) (i + String.length a) i
  = PyStr.find_at sub rest (i + String.length a) (i + String.length a).
Proof.
  revert i. induction a as [|x a IH]; intros i.
  - simpl. now rewrite Nat.add_0_r.
  - cbn [append PyStr.find_at String.length].
    assert (H : (i + S (String.length a) <=? i)%nat = false)
      by (apply Nat.leb_gt; lia).
    rewrite H. cbn [andb].
    replace (i + S (String.length a)) with (S i + String.length a) by lia.
    apply IH.
Qed.

(** The first occurrence of a character at or after the start. *)
Lemma find_at_first (c : ascii) (b post : string) (start i : nat) :
  start <= i ->
  PyStr.contains (String c "") b = false ->
  PyStr.find_at (String c "") (b ++ String c post) start i
  = Z.of_nat (i + String.length b).
Proof.
  intros Hle Hb. revert i Hle. induction b as [|x b IH]; intros i Hle.
  - cbn [append PyStr.find_at]. apply Nat.leb_le in Hle. rewrite Hle.
    rewrite prefix_char. destruct (Ascii.ascii_dec c c); [|congruence].
    simpl. now rewrite Nat.add_0_r.
  - rewrite contains_cons, orb_false_iff in Hb. destruct Hb as [Hp Hb].
    rewrite prefix_char in Hp.
    cbn [append PyStr.find_at]. rewrite prefix_char.
    destruct (Ascii.ascii_dec c x); [discriminate|].
    rewrite andb_false_r. rewrite (IH Hb (S i)) by lia.
    simpl. f_equal. lia.
Qed.

(** ** Dicts *)

Section DictFacts.
Context {V : Type}.
Implicit Types (d : pydict V) (k : string) (v : V).

Lemma get_set_same k v d : PyDict.get k (PyDict.set k v d) = Some v.
Proof.
  induction d as [|[k' v'] d IH]; simpl.
  - now rewrite String.eqb_refl.
  - destruct (String.eqb k' k) eqn:E; simpl; now rewrite E.
Qed.

Lemma get_set_other k k' v d :
  k <> k' -> PyDict.get k (PyDict.set k' v d) = PyDict.get k d.
Proof.
  intros Hne. induction d as [|[k0 v0] d IH]; simpl.
  - destruct (String.eqb_spec k' k); congruence.
  - destruct (String.eqb_spec k0 k'); simpl.
    + subst. destruct (String.eqb_spec k' k); congruence.
    + now rewrite IH.
Qed.

Lemma get_None_iff k d : PyDict.get k d = None <-> ~ In k (PyDict.keys d).
Proof.
  induction d as [|[k' v'] d IH]; simpl.
  - tauto.
  - destruct (String.eqb_spec k' k).
    + split; [discriminate | tauto].
    + rewrite IH. tauto.
Qed.

Lemma get_Some_in k v d : PyDict.get k d = Some v -> In k (PyDict.keys d).
Proof.
  intros H. destruct (in_dec string_dec k (PyDict.keys d)) as [|Hn]; auto.
  apply get_None_iff in Hn. congruence.
Qed.

Lemma in_keys_get k d : In k (PyDict.keys d) -> exists v, PyDict.get k d = Some v.
Proof.
  intros H. destruct (PyDict.get k d) eqn:E; eauto.
  apply get_None_iff in E. contradiction.
Qed.

Lemma keys_set_old k v d :
  In k (PyDict.keys d) -> PyDict.keys (PyDict.set k v d) = PyDict.keys d.
Proof.
  induction d as [|[k' v'] d IH]; simpl; [tauto|].
  destruct (String.eqb_spec k' k); simpl; [reflexivity|].
  intros [?|H]; [congruence|]. now rewrite IH.
Qed.

Lemma keys_set_new k v d :
  ~ In k (PyDict.keys d) -> PyDict.keys (PyDict.set k v d) = PyDict.keys d ++ [k].
Proof.
  induction d as [|[k' v'] d IH]; simpl; [reflexivity|].
  destruct (String.eqb_spec k' k); simpl; [tauto|].
  intros H. rewrite IH; tauto.
Qed.

Lemma in_keys_set k k' v d :
  In k (PyDict.keys (PyDict.set k' v d)) <-> k = k' \/ In k (PyDict.keys d).
Proof.
  destruct (in_dec string_dec k' (PyDict.keys d)) as [Hin|Hn].
  - rewrite keys_set_old by assumption. split; [tauto|].
    intros [->|]; assumption.
  - rewrite keys_set_new by assumption. rewrite in_app_iff. simpl.
    split; [intros [|[|[]]]|intros [|]]; auto.
Qed.

Lemma NoDup_keys_set k v d :
  NoDup (PyDict.keys d) -> NoDup (PyDict.keys (PyDict.set k v d)).
Proof.
  intros H. destruct (in_dec string_dec k (PyDict.keys d)) as [Hin|Hn].
  - now rewrite keys_set_old.
  - rewrite keys_set_new by assumption.
    apply NoDup_app; [assumption | repeat constructor; simpl; tauto |].
    intros x Hx [<-|[]]. contradiction.
Qed.
End DictFacts.

(** ** UpdatePipeline (lines 77-97) *)

Lemma UpdatePipeline_list (self : Isophote_Pipeline)
    (m : option (pydict step_fn)) (l : list string) :
  l <> [] ->
  upd_end (UpdatePipeline self m (Some (StepsList l))) = Returns tt
  /\ PyDict.get "head"
       (pipeline_steps (upd_self (UpdatePipeline self m (Some (StepsList l)))))
     = Some l
  /\ forall k, k <> "head"%string ->
       PyDict.get k
         (pipeline_steps
            (upd_self (UpdatePipeline self m (Some (StepsList l)))))
       = PyDict.get k (pipeline_steps self).
Proof.
  intros Hne. destruct l as [|s l]; [congruence|].
  unfold UpdatePipeline. cbn [steps_truthy].
  destruct m as [[|kv m]|]; cbn [PyDict.truthy];
    cbn [upd_end upd_self pipeline_steps pipeline_methods];
    (split; [reflexivity|]); (split;
    [apply get_set_same | intros k Hk; now apply get_set_other]).
Qed.

Lemma UpdatePipeline_no_steps (self : Isophote_Pipeline)
    (m : option (pydict step_fn)) :
  upd_end (UpdatePipeline self m None) = Returns tt
  /\ pipeline_steps (upd_self (UpdatePipeline self m None))
     = pipeline_steps self.
Proof.
  unfold UpdatePipeline.
  destruct m as [[|kv m]|]; cbn [PyDict.truthy]; now split.
Qed.

(** C4, as the claim states it, fails on the empty mapping: [{}] lacks
    "head", yet the test [if new_pipeline_steps:] skips the whole update and
    the call returns normally. *)
Lemma UpdatePipeline_empty_dict_accepted :
  PyDict.mem "head" (@nil (string * list string)) = false
  /\ upd_end (UpdatePipeline Fixture.forked None (Some (StepsDict [])))
     = Returns tt
  /\ pipeline_steps
       (upd_self (UpdatePipeline Fixture.forked None (Some (StepsDict []))))
     = pipeline_steps Fixture.forked.
Proof. repeat split. Qed.

(** C4 (amended): a non-empty mapping without "head" makes the call raise
    AssertionError and leaves [pipeline_steps] as it was; a mapping with
    "head" becomes the whole of [pipeline_steps]; a non-empty list replaces
    the "head" sequence and no other; an empty mapping, an empty list or no
    argument leaves [pipeline_steps] as it was and the call returns. *)
Theorem UpdatePipeline_sequences (self : Isophote_Pipeline)
    (m : option (pydict step_fn)) :
  (forall d, d <> [] -> PyDict.mem "head" d = false ->
     upd_end (UpdatePipeline self m (Some (StepsDict d)))
       = Raises AssertionError
     /\ pipeline_steps (upd_self (UpdatePipeline self m (Some (StepsDict d))))
        = pipeline_steps self)
  /\ (forall d, PyDict.mem "head" d = true ->
        upd_end (UpdatePipeline self m (Some (StepsDict d))) = Returns tt
        /\ pipeline_steps
             (upd_self (UpdatePipeline self m (Some (StepsDict d)))) = d)
  /\ (forall l, l <> [] ->
        upd_end (UpdatePipeline self m (Some (StepsList l))) = Returns tt
        /\ PyDict.get "head"
             (pipeline_steps
                (upd_self (UpdatePipeline self m (Some (StepsList l)))))
           = Some l
        /\ forall k, k <> "head"%string ->
             PyDict.get k
               (pipeline_steps
                  (upd_self (UpdatePipeline self m (Some (StepsList l)))))
             = PyDict.get k (pipeline_steps self))
  /\ (forall a, a = None \/ a = Some (StepsDict []) \/ a = Some (StepsList []) ->
        upd_end (UpdatePipeline self m a) = Returns tt
        /\ pipeline_steps (upd_self (UpdatePipeline self m a))
           = pipeline_steps self).
Proof.
  unfold UpdatePipeline.
  destruct m as [[|kv m]|]; cbn [PyDict.truthy];
    (split; [|split; [|split]]).
  all: try (intros [|kv' d] Hne Hm; [congruence|];
            cbn [steps_truthy PyDict.truthy]; rewrite Hm; now split).
  all: try (intros [|kv' d] Hm; [discriminate|];
            cbn [steps_truthy PyDict.truthy]; rewrite Hm; now split).
  all: try (intros [|s l] Hne; [congruence|]; cbn [steps_truthy];
            cbn [upd_end upd_self pipeline_steps pipeline_methods];
            split; [reflexivity|]; split;
            [apply get_set_same | intros k Hk; now apply get_set_other]).
  all: intros a [->|[->| ->]]; now split.
Qed.

Lemma UpdatePipeline_sequences_witness :
  upd_end (UpdatePipeline Fixture.forked None
             (Some (StepsDict [("tail"%string, ["writeprof"%string])])))
    = Raises AssertionError
  /\ pipeline_steps
       (upd_self (UpdatePipeline Fixture.forked None
                    (Some (StepsDict [("tail"%string, ["writeprof"%string])]))))
     = pipeline_steps Fixture.forked.
Proof.
  apply (proj1 (UpdatePipeline_sequences Fixture.forked None)).
  - discriminate.
  - reflexivity.
Defined.

(** ** The forced sequence (lines 250-252) *)

(** C2, as the claim states it, fails: the head sequence installed in forced
    mode has seven steps, with isophote initialisation between the forced
    centre and the forced fit, and is not the six-step list of the
    specification. *)
Lemma forced_head_differs_from_spec :
  match fst (configure (init (fun _ => Fixture.pass))
               {| process_mode := "forced image";
                  new_pipeline_methods := None;
                  new_pipeline_steps := None |}) with
  | Returns self' => PyDict.get "head" (pipeline_steps self')
  | Raises _ => None
  end
  = Some ["background"; "psf"; "center forced"; "isophoteinit";
          "isophotefit forced"; "isophoteextract forced"; "writeprof"]%string
  /\ ["background"; "psf"; "center forced"; "isophoteinit";
      "isophotefit forced"; "isophoteextract forced"; "writeprof"]%string
     <> spec_forced_sequence.
Proof. split; [reflexivity | discriminate]. Qed.

(** C2 (amended): when the process mode contains "forced" and the
    configuration supplies no sequence override, the head sequence becomes
    background, psf, center forced, isophoteinit, isophotefit forced,
    isophoteextract forced, writeprof (the fit-quality check "checkfit" is
    not in it), whatever the registry override, and every other sequence is
    left as it was. *)
Theorem forced_mode_head (self : Isophote_Pipeline) (c : config) :
  PyStr.contains "forced" (process_mode c) = true ->
  new_pipeline_steps c = None ->
  exists self',
    fst (configure self c) = Returns self'
    /\ PyDict.get "head" (pipeline_steps self')
       = Some ["background"; "psf"; "center forced"; "isophoteinit";
               "isophotefit forced"; "isophoteextract forced";
               "writeprof"]%string
    /\ ~ In "checkfit"%string
         ["background"; "psf"; "center forced"; "isophoteinit";
          "isophotefit forced"; "isophoteextract forced"; "writeprof"]%string
    /\ (forall k, k <> "head"%string ->
          PyDict.get k (pipeline_steps self')
          = PyDict.get k (pipeline_steps self))
    /\ forall Read_Image GetOptions clock job_clock fuel run,
         Process_ConfigFile Read_Image GetOptions clock job_clock fuel self c
         = Some run ->
         cfg_self run = self'.
Proof.
  intros Hmode Hsteps.
  assert (Hcfg : exists self' l,
            configure self c = (Returns self', l)
            /\ pipeline_steps self'
               = pipeline_steps
                   (upd_self (UpdatePipeline self None
                                (Some (StepsList forced_head))))).
  { unfold configure. rewrite Hmode, Hsteps.
    destruct (UpdatePipeline_list self None forced_head ltac:(discriminate))
      as (Hend & _).
    rewrite Hend.
    set (self1 := upd_self (UpdatePipeline self None
                              (Some (StepsList forced_head)))) in *.
    destruct (UpdatePipeline_no_steps self1 (new_pipeline_methods c))
      as (_ & Hsame).
    set (self2 := upd_self (UpdatePipeline self1 (new_pipeline_methods c)
                              None)) in *.
    destruct (UpdatePipeline_no_steps self2 None) as (_ & Hsame').
    eexists. eexists. split; [reflexivity|]. now rewrite Hsame', Hsame. }
  destruct Hcfg as (self' & l & Hcfg & Hsame).
  destruct (UpdatePipeline_list self None forced_head ltac:(discriminate))
    as (_ & Hhead & Hrest).
  exists self'. rewrite Hcfg, Hsame.
  split; [reflexivity|]. split; [exact Hhead|]. split; [|split].
  - simpl. intros H. repeat (destruct H as [H|H]; [discriminate|]). exact H.
  - exact Hrest.
  - intros Read_Image GetOptions clock job_clock fuel run.
    unfold Process_ConfigFile. rewrite Hcfg.
    destruct (String.eqb (process_mode c) "image"
              || String.eqb (process_mode c) "forced image").
    + destruct (Process_Image _ _ _ _ _); [|discriminate].
      now intros [= <-].
    + destruct (String.eqb (process_mode c) "image list"
                || String.eqb (process_mode c) "forced image list").
      * destruct (Process_List _ _ _ _ _ _); [|discriminate].
        now intros [= <-].
      * now intros [= <-].
Qed.

Lemma forced_mode_head_witness :
  exists self',
    fst (configure (init (fun _ => Fixture.pass))
           {| process_mode := "forced image list";
              new_pipeline_methods := None;
              new_pipeline_steps := None |}) = Returns self'
    /\ PyDict.get "head" (pipeline_steps self')
       = Some ["background"; "psf"; "center forced"; "isophoteinit";
               "isophotefit forced"; "isophoteextract forced";
               "writeprof"]%string.
Proof.
  destruct (forced_mode_head (init (fun _ => Fixture.pass))
              {| process_mode := "forced image list";
                 new_pipeline_methods := None;
                 new_pipeline_steps := None |} eq_refl eq_refl)
    as (self' & Hcfg & Hhead & _).
  exists self'. split; [exact Hcfg | exact Hhead].
Defined.

(** ** The job name (lines 116-118) *)

(** Whatever the directory, the derived name keeps the slash in front of
    the base name: for [dir/base.ext], with no slash in [base.ext] and no
    dot in [base], lines 117-118 give [/base]. *)
Lemma derive_name_with_directory (dir base ext : string) :
  PyStr.contains "/" (base ++ String "." ext) = false ->
  PyStr.contains "." base = false ->
  derive_name (dir ++ String "/" (base ++ String "." ext))
  = String "/" base.
Proof.
  intros Hslash Hdot. unfold derive_name.
  set (s := (dir ++ String "/" (base ++ String "." ext))%string).
  assert (Hin : PyStr.contains "/" s = true).
  { apply contains_iff. exists dir, (base ++ String "." ext)%string.
    reflexivity. }
  rewrite Hin. unfold PyStr.rfind.
  assert (Hr : PyStr.rfind_at "/" s 0 = Z.of_nat (String.length dir))
    by (unfold s; now rewrite rfind_at_last).
  rewrite Hr.
  assert (Hlen : String.length s
                 = String.length dir + S (String.length base
                                          + S (String.length ext))).
  { unfold s. rewrite length_append. simpl. now rewrite length_append. }
  assert (Hf : PyStr.find "." s (Z.of_nat (String.length dir))
               = Z.of_nat (String.length dir + S (String.length base))).
  { unfold PyStr.find, PyStr.clamp.
    destruct (Z.of_nat (String.length dir) <? 0)%Z eqn:E;
      [apply Z.ltb_lt in E; lia|].
    rewrite Nat2Z.id, Hlen, Nat.min_l by lia.
    unfold s. rewrite (find_at_skip "." dir _ 0). cbn [Nat.add].
    change (String "/" (base ++ String "." ext))%string
      with (String "/" base ++ String "." ext)%string.
    rewrite find_at_first; [reflexivity | lia |].
    rewrite contains_cons, prefix_char, Hdot. reflexivity. }
  rewrite Hf. unfold PyStr.slice, PyStr.clamp.
  destruct (Z.of_nat (String.length dir) <? 0)%Z eqn:E1;
    [apply Z.ltb_lt in E1; lia|].
  destruct (Z.of_nat (String.length dir + S (String.length base)) <? 0)%Z
    eqn:E2; [apply Z.ltb_lt in E2; lia|].
  rewrite !Nat2Z.id, Hlen, !Nat.min_l by lia.
  replace (String.length dir + S (String.length base) - String.length dir)
    with (String.length (String "/" base)) by (simpl; lia).
  unfold s.
  change (String "/" (base ++ String "." ext))%string
    with (String "/" base ++ String "." ext)%string.
  apply substring_middle.
Qed.

(** C3: on "path/to/img.fits" the derived job name is "/img": the slice
    starts at the last slash, not after it.  The same derivation in
    [Process_ConfigFile] (lines 234-239) starts one past the slash and
    yields "img".  The name with the slash is the one the engine uses, here
    in the line it logs when the image cannot be read.  Without a directory
    the derived name is the expected one, as long as the file name has a
    dot: without one, [find] answers -1 and the slice drops the last
    character, which lines 238-241 guard against. *)
Theorem derived_name_keeps_slash :
  derive_name "path/to/img.fits" = "/img"%string
  /\ resolve_name (Fixture.options_for "path/to/img.fits")
     = Returns ("/img"%string,
                [("image_file"%string, VStr "path/to/img.fits");
                 ("name"%string, VStr "/img")])
  /\ option_map run_log
       (Process_Image Fixture.unreadable Fixture.twice Fixture.tick_clock 0
          (Fixture.options_for "path/to/img.fits"))
     = Some [LogError (MsgCouldNotRead "/img" (VStr "path/to/img.fits"))]
  /\ config_module_name "path/to/img.fits" = "img"%string
  /\ derive_name "img.fits" = "img"%string
  /\ derive_name "img" = "im"%string
  /\ config_module_name "img" = "img"%string.
Proof. repeat split. Qed.

(** ** The dispatch loop (lines 139-161) *)

Section LoopFacts.
Variable self : Isophote_Pipeline.
Variable clock : nat -> float.
Variable options : pydict value.
Variable name : string.
Variable start : float.

Local Abbreviation tick_here := (tick self clock options name start).
Local Abbreviation run_loop_here := (run_loop self clock options name start).
Local Abbreviation advance_here := (advance self clock options name start).
Local Abbreviation announce_here := (announce clock name start).

(** The shape of a pass whose guard holds. *)
Lemma tick_at st sequence stepname :
  PyDict.get (key st) (pipeline_steps self) = Some sequence ->
  nth_error sequence (step st) = Some stepname ->
  tick_here st =
    if PyStr.contains "branch" stepname then
      match PyDict.get stepname (pipeline_methods self) with
      | None => Fault (handler name stepname (announce_here stepname st))
      | Some f =>
          match f (dat st) (results st) options with
          | SRaise =>
              Fault (handler name stepname
                       (called stepname (announce_here stepname st)))
          | SStr decision =>
              Continue (goto decision 0
                          (called stepname (announce_here stepname st)))
          | SPair _ _ | SOther =>
              Continue (goto (key st) (S (step st))
                          (called stepname (announce_here stepname st)))
          end
      end
    else
      match PyDict.get stepname (pipeline_methods self) with
      | None =>
          Fault (handler name stepname
                   (read_clock 1 (announce_here stepname st)))
      | Some f =>
          match f (dat st) (results st) options with
          | SPair dat' res =>
              Continue
                (goto (key st) (S (step st))
                   (read_clock 1
                      (stored dat' (PyDict.update (results st) res)
                         (PyDict.set stepname
                            (PrimFloat.sub
                               (clock (clk (called stepname
                                  (read_clock 1 (announce_here stepname st)))))
                               (clock (clk (announce_here stepname st))))
                            (timers st))
                         (called stepname
                            (read_clock 1 (announce_here stepname st))))))
          | SRaise | SStr _ | SOther =>
              Fault (handler name stepname
                       (called stepname
                          (read_clock 1 (announce_here stepname st))))
          end
      end.
Proof.
  intros Hseq Hnth. unfold tick. rewrite Hseq.
  assert (Hlt : (step st < length sequence)%nat)
    by (apply nth_error_Some; congruence).
  apply Nat.ltb_lt in Hlt as Hb. rewrite Hb.
  rewrite (nth_error_nth _ _ ""%string Hnth). reflexivity.
Qed.

Lemma tick_unknown_key st :
  PyDict.get (key st) (pipeline_steps self) = None ->
  tick_here st = Uncaught KeyError st.
Proof. intros H. unfold tick. now rewrite H. Qed.

Lemma run_loop_advance k n st st' :
  advance_here k st = Some st' -> run_loop_here (k + n) st = run_loop_here n st'.
Proof.
  revert st. induction k as [|k IH]; simpl; intros st H.
  - now injection H as ->.
  - destruct (tick_here st); try discriminate. now apply IH.
Qed.
End LoopFacts.

(** C6: in a pass whose step name contains "branch" and whose registered
    function returns without raising, a returned string becomes the current
    sequence with the index back at 0, any other returned value moves the
    index one step on in the same sequence; the image, the results and the
    timers are those of before the pass. *)
Theorem branch_tick (self : Isophote_Pipeline) (clock : nat -> float)
    (options : pydict value) (name : string) (start : float)
    (st : run_state) (sequence : list string) (stepname : string)
    (f : step_fn) :
  PyDict.get (key st) (pipeline_steps self) = Some sequence ->
  nth_error sequence (step st) = Some stepname ->
  PyStr.contains "branch" stepname = true ->
  PyDict.get stepname (pipeline_methods self) = Some f ->
  f (dat st) (results st) options <> SRaise ->
  exists st',
    tick self clock options name start st = Continue st'
    /\ (forall s, f (dat st) (results st) options = SStr s ->
          key st' = s /\ step st' = 0)
    /\ ((forall s, f (dat st) (results st) options <> SStr s) ->
          key st' = key st /\ step st' = step st + 1)
    /\ results st' = results st
    /\ timers st' = timers st
    /\ dat st' = dat st.
Proof.
  intros Hseq Hnth Hbranch Hf Hret.
  rewrite (tick_at _ _ _ _ _ _ _ _ Hseq Hnth), Hbranch, Hf.
  destruct (f (dat st) (results st) options) as [|s|dat' res|];
    [congruence| | |]; eexists; (split; [reflexivity|]);
    cbn [goto called key step results timers dat];
    repeat split; try congruence; try lia.
Qed.

Lemma branch_tick_witness :
  exists st',
    tick Fixture.forked Fixture.tick_clock [] "job" PrimFloat.zero
      (Fixture.at_step 2) = Continue st'
    /\ (forall s, Fixture.jump "tail" Fixture.one_pixel [] [] = SStr s ->
          key st' = s /\ step st' = 0)
    /\ ((forall s, Fixture.jump "tail" Fixture.one_pixel [] [] <> SStr s) ->
          key st' = key (Fixture.at_step 2)
          /\ step st' = step (Fixture.at_step 2) + 1)
    /\ results st' = results (Fixture.at_step 2)
    /\ timers st' = timers (Fixture.at_step 2)
    /\ dat st' = dat (Fixture.at_step 2).
Proof.
  apply (branch_tick Fixture.forked Fixture.tick_clock [] "job" PrimFloat.zero
           (Fixture.at_step 2)
           ["background"; "branch skip"; "branch check"]%string
           "branch check" (Fixture.jump "tail")).
  - reflexivity.
  - reflexivity.
  - reflexivity.
  - reflexivity.
  - discriminate.
Defined.

(** C9: whether a pass treats its step as a branch is decided by the
    occurrence of "branch" in the step name alone, for whatever function [f]
    is registered under the name.  Under a name with "branch" in it, a
    returned string is a redirect, a raise is a fault, and any other value,
    a regular step's pair included, moves one step on without touching
    image, results or timers.  Under a name without it, only a pair is
    accepted (image and results updated, the name timed); a string or any
    other value, as a branch function returns, is a fault. *)
Theorem dispatch_by_name (self : Isophote_Pipeline) (clock : nat -> float)
    (options : pydict value) (name : string) (start : float)
    (st : run_state) (sequence : list string) (stepname : string)
    (f : step_fn) :
  PyDict.get (key st) (pipeline_steps self) = Some sequence ->
  nth_error sequence (step st) = Some stepname ->
  PyDict.get stepname (pipeline_methods self) = Some f ->
  ((exists pre post, stepname = (pre ++ "branch" ++ post)%string) ->
     match f (dat st) (results st) options with
     | SStr s =>
         exists st', tick self clock options name start st = Continue st'
           /\ key st' = s /\ step st' = 0
           /\ dat st' = dat st /\ results st' = results st
           /\ timers st' = timers st
     | SRaise =>
         exists st', tick self clock options name start st = Fault st'
     | SPair _ _ | SOther =>
         exists st', tick self clock options name start st = Continue st'
           /\ key st' = key st /\ step st' = S (step st)
           /\ dat st' = dat st /\ results st' = results st
           /\ timers st' = timers st
     end)
  /\ (~ (exists pre post, stepname = (pre ++ "branch" ++ post)%string) ->
        match f (dat st) (results st) options with
        | SPair dat' res =>
            exists st', tick self clock options name start st = Continue st'
              /\ key st' = key st /\ step st' = S (step st)
              /\ dat st' = dat' /\ results st' = PyDict.update (results st) res
              /\ In stepname (PyDict.keys (timers st'))
        | SRaise | SStr _ | SOther =>
            exists st', tick self clock options name start st = Fault st'
        end).
Proof.
  intros Hseq Hnth Hf.
  rewrite (tick_at _ _ _ _ _ _ _ _ Hseq Hnth), Hf.
  split; intros Hname.
  - apply contains_iff in Hname. rewrite Hname.
    destruct (f (dat st) (results st) options); eexists;
      first [reflexivity | split; [reflexivity|]; repeat split].
  - destruct (PyStr.contains "branch" stepname) eqn:E.
    + apply contains_iff in E. contradiction.
    + destruct (f (dat st) (results st) options); eexists;
        try reflexivity.
      split; [reflexivity|].
      cbn [goto read_clock stored called key step results timers dat].
      repeat split.
      apply in_keys_set. now left.
Qed.

Lemma dispatch_by_name_witness :
  (exists st',
     tick Fixture.mislabeled Fixture.tick_clock [] "job" PrimFloat.zero
       (Fixture.at_step 0) = Continue st'
     /\ key st' = "head"%string /\ step st' = 1
     /\ dat st' = Fixture.one_pixel /\ results st' = [] /\ timers st' = [])
  /\ (exists st',
        tick Fixture.mislabeled Fixture.tick_clock [] "job" PrimFloat.zero
          (Fixture.at_step 1) = Fault st').
Proof.
  split.
  - apply (proj1 (dispatch_by_name Fixture.mislabeled Fixture.tick_clock []
                    "job" PrimFloat.zero (Fixture.at_step 0)
                    ["branch background"; "check"]%string
                    "branch background" Fixture.pass
                    eq_refl eq_refl eq_refl)).
    now exists ""%string, " background"%string.
  - apply (proj2 (dispatch_by_name Fixture.mislabeled Fixture.tick_clock []
                    "job" PrimFloat.zero (Fixture.at_step 1)
                    ["branch background"; "check"]%string
                    "check" (Fixture.jump "tail")
                    eq_refl eq_refl eq_refl)).
    intros H. apply contains_iff in H. discriminate H.
Defined.

Lemma tick_Continue_no_error (self : Isophote_Pipeline) (clock : nat -> float)
    (options : pydict value) (name : string) (start : float)
    (st st' : run_state) :
  tick self clock options name start st = Continue st' ->
  no_error (log st) -> no_error (log st').
Proof.
  unfold tick. intros H Hlog.
  destruct (PyDict.get (key st) (pipeline_steps self)); [|discriminate].
  destruct (step st <? length l)%nat; [|discriminate].
  assert (Hann : no_error (log (announce clock name start
                                  (nth (step st) l ""%string) st))).
  { intros m. cbn [announce read_clock emit log]. rewrite in_app_iff.
    intros [Hin|[Hin|[Hin|[]]]]; [now apply (Hlog m) | |]; discriminate. }
  destruct (PyStr.contains "branch" (nth (step st) l ""%string));
    destruct (PyDict.get (nth (step st) l ""%string) (pipeline_methods self));
    try discriminate;
    destruct (s (dat st) (results st) options); try discriminate;
    injection H as <-; exact Hann.
Qed.

Lemma advance_no_error (self : Isophote_Pipeline) (clock : nat -> float)
    (options : pydict value) (name : string) (start : float)
    (k : nat) (st st' : run_state) :
  advance self clock options name start k st = Some st' ->
  no_error (log st) -> no_error (log st').
Proof.
  revert st. induction k as [|k IH]; simpl; intros st H Hlog.
  - now injection H as <-.
  - destruct (tick self clock options name start st) eqn:E; try discriminate.
    eapply IH; [eassumption|]. eapply tick_Continue_no_error; eassumption.
Qed.

(** C10: when the run of an image has come, after [k] passes, to a branch
    step whose function returns a name that is no key of [pipeline_steps],
    [Process_Image] ends with an uncaught KeyError (raised by the loop
    guard of the next pass, outside the try), not with the returned [1],
    and no error line is logged. *)
Theorem unknown_redirect_uncaught
    (Read_Image : value -> pydict value -> read_result)
    (self : Isophote_Pipeline) (clock : nat -> float)
    (options options1 : pydict value) (name : string) (image_file : value)
    (dat0 : ndarray) (k fuel : nat) (st : run_state)
    (sequence : list string) (stepname : string) (f : step_fn)
    (s : string) :
  resolve_name options = Returns (name, options1) ->
  PyDict.get "image_file" options1 = Some image_file ->
  Read_Image image_file options1 = ReadReturns (Some dat0) ->
  shape0 dat0 <> 0 ->
  chunk_missing dat0 = false ->
  advance self clock options1 name (clock 0) k (initial_state dat0) = Some st ->
  PyDict.get (key st) (pipeline_steps self) = Some sequence ->
  nth_error sequence (step st) = Some stepname ->
  PyStr.contains "branch" stepname = true ->
  PyDict.get stepname (pipeline_methods self) = Some f ->
  f (dat st) (results st) options1 = SStr s ->
  PyDict.get s (pipeline_steps self) = None ->
  exists r,
    Process_Image Read_Image self clock (k + (2 + fuel)) options = Some r
    /\ returned r = Raises KeyError
    /\ returned r <> Returns Failure
    /\ no_error (run_log r).
Proof.
  intros Hname Hfile Hread Hrows Hchunk Hadv Hseq Hnth Hbranch Hf Hret Hs.
  unfold Process_Image. rewrite Hname, Hfile, Hread.
  apply Nat.eqb_neq in Hrows. rewrite Hrows, Hchunk.
  rewrite (run_loop_advance _ _ _ _ _ _ _ _ _ Hadv).
  cbn [Nat.add run_loop].
  rewrite (tick_at _ _ _ _ _ _ _ _ Hseq Hnth), Hbranch, Hf, Hret.
  rewrite tick_unknown_key by exact Hs.
  eexists. split; [reflexivity|]. cbn [ended returned run_log].
  split; [reflexivity|]. split; [discriminate|].
  intros m. cbn [goto called announce read_clock emit log].
  rewrite in_app_iff. intros [Hin|[Hin|[Hin|[]]]]; try discriminate.
  revert Hin. eapply advance_no_error; [exact Hadv|]. intros m' [].
Qed.

Lemma unknown_redirect_uncaught_witness :
  exists r,
    Process_Image (Fixture.reads Fixture.one_pixel) Fixture.lost
      Fixture.tick_clock (0 + (2 + 0)) (Fixture.options_for "img.fits")
    = Some r
    /\ returned r = Raises KeyError
    /\ returned r <> Returns Failure
    /\ no_error (run_log r).
Proof.
  apply (unknown_redirect_uncaught (Fixture.reads Fixture.one_pixel)
           Fixture.lost Fixture.tick_clock (Fixture.options_for "img.fits")
           [("image_file"%string, VStr "img.fits");
            ("name"%string, VStr "img")]
           "img" (VStr "img.fits") Fixture.one_pixel 0 0
           (initial_state Fixture.one_pixel) ["branch away"%string]
           "branch away" (Fixture.jump "nowhere") "nowhere").
  - reflexivity.
  - reflexivity.
  - reflexivity.
  - discriminate.
  - reflexivity.
  - reflexivity.
  - reflexivity.
  - reflexivity.
  - reflexivity.
  - reflexivity.
  - reflexivity.
  - reflexivity.
Defined.

(** ** The empty-frame check (lines 128-130) *)

Lemma window_in (len i : nat) :
  In i (window len) ->
  (i < len)%nat
  /\ (Z.of_nat len / 2 - 10 <= Z.of_nat i < Z.of_nat len / 2 + 10)%Z.
Proof.
  unfold window, PyStr.clamp. rewrite in_seq.
  pose proof (Z.div_pos (Z.of_nat len) 2 ltac:(lia) ltac:(lia)) as Hmid.
  set (mid := (Z.of_nat len / 2)%Z) in *.
  destruct (mid - 10 <? 0)%Z eqn:Elo; destruct (mid + 10 <? 0)%Z eqn:Ehi;
    lia.
Qed.

Lemma center_window_zero_chunk (a : ndarray) :
  center_window_zero a -> chunk_missing a = true.
Proof.
  intros H. unfold chunk_missing.
  apply forallb_forall. intros i Hi. apply forallb_forall. intros j Hj.
  apply window_in in Hi, Hj. apply H; tauto.
Qed.

(** C8: when [Read_Image] hands back [None], or a frame (with at least one
    row) whose pixels in the centred 20 x 20 window are all zero,
    [Process_Image] returns the failure value [1] whatever the fuel, having
    logged only the missing-data error: no pass of the loop was announced
    and no step function was called, so no timer and no result exists. *)
Theorem empty_frame_fails
    (Read_Image : value -> pydict value -> read_result)
    (self : Isophote_Pipeline) (clock : nat -> float) (fuel : nat)
    (options options1 : pydict value) (name : string) (image_file : value)
    (payload : option ndarray) :
  resolve_name options = Returns (name, options1) ->
  PyDict.get "image_file" options1 = Some image_file ->
  Read_Image image_file options1 = ReadReturns payload ->
  (payload = None
   \/ exists a, payload = Some a /\ shape0 a <> 0 /\ center_window_zero a) ->
  exists r,
    Process_Image Read_Image self clock fuel options = Some r
    /\ returned r = Returns Failure
    /\ run_log r = [LogError (MsgChunkMissing name)]
    /\ run_calls r = [].
Proof.
  intros Hname Hfile Hread Hpayload.
  unfold Process_Image. rewrite Hname, Hfile, Hread.
  destruct Hpayload as [->|(a & -> & Hrows & Hzero)].
  - eexists. repeat split.
  - apply Nat.eqb_neq in Hrows. rewrite Hrows.
    rewrite (center_window_zero_chunk a Hzero).
    eexists. repeat split.
Qed.

Lemma holed_center_window_zero : center_window_zero Fixture.holed.
Proof.
  intros i j Hi Hj Hwi Hwj. cbn [Fixture.holed shape0 shape1 item] in *.
  change (Z.of_nat 100 / 2)%Z with 50%Z in *.
  assert (H1 : (30 <=? i)%nat = true) by (apply Nat.leb_le; lia).
  assert (H2 : (i <? 70)%nat = true) by (apply Nat.ltb_lt; lia).
  assert (H3 : (30 <=? j)%nat = true) by (apply Nat.leb_le; lia).
  assert (H4 : (j <? 70)%nat = true) by (apply Nat.ltb_lt; lia).
  rewrite H1, H2, H3, H4. reflexivity.
Qed.

Lemma empty_frame_fails_witness :
  exists r,
    Process_Image (Fixture.reads Fixture.holed) Fixture.forked
      Fixture.tick_clock 10 (Fixture.options_for "img.fits") = Some r
    /\ returned r = Returns Failure
    /\ run_log r = [LogError (MsgChunkMissing "img")]
    /\ run_calls r = [].
Proof.
  apply (empty_frame_fails (Fixture.reads Fixture.holed) Fixture.forked
           Fixture.tick_clock 10 (Fixture.options_for "img.fits")
           [("image_file"%string, VStr "img.fits");
            ("name"%string, VStr "img")]
           "img" (VStr "img.fits") (Some Fixture.holed)).
  - reflexivity.
  - reflexivity.
  - reflexivity.
  - right. exists Fixture.holed. split; [reflexivity|].
    split; [discriminate | exact holed_center_window_zero].
Defined.

(** ** Timers and calls (lines 136-157) *)

Lemma regular_calls_snoc (names : list string) (n : string) :
  regular_calls (names ++ [n])
  = regular_calls names ++ (if PyStr.contains "branch" n then [] else [n]).
Proof.
  unfold regular_calls. rewrite filter_app. simpl.
  now destruct (PyStr.contains "branch" n).
Qed.

Lemma tick_Continue_track (self : Isophote_Pipeline) (clock : nat -> float)
    (options : pydict value) (name : string) (start : float)
    (st st' : run_state) :
  tick self clock options name start st = Continue st' ->
  timers_track st -> timers_track st'.
Proof.
  unfold tick. intros H [Hnd Hkeys].
  destruct (PyDict.get (key st) (pipeline_steps self)); [|discriminate].
  destruct (step st <? length l)%nat; [|discriminate].
  set (stepname := nth (step st) l ""%string) in *.
  destruct (PyStr.contains "branch" stepname) eqn:E;
    destruct (PyDict.get stepname (pipeline_methods self)); try discriminate;
    destruct (s (dat st) (results st) options); try discriminate;
    injection H as <-; unfold timers_track;
    cbn [goto called announce read_clock emit stored timers calls];
    rewrite regular_calls_snoc, E.
  1-3: rewrite app_nil_r; now split.
  split; [now apply NoDup_keys_set|].
  intros k. rewrite in_keys_set, in_app_iff, Hkeys. simpl.
  split; [intros [->|]|intros [|[|[]]]]; auto.
Qed.

Lemma run_loop_track (self : Isophote_Pipeline) (clock : nat -> float)
    (options : pydict value) (name : string) (start : float)
    (fuel : nat) (st st' : run_state) :
  run_loop self clock options name start fuel st = Some (Completed st') ->
  timers_track st -> timers_track st'.
Proof.
  revert st. induction fuel as [|fuel IH]; simpl; intros st H Htrack.
  - discriminate.
  - destruct (tick self clock options name start st) eqn:E.
    + eapply IH; [eassumption|]. eapply tick_Continue_track; eassumption.
    + unfold tick in E.
      destruct (PyDict.get (key st) (pipeline_steps self)); [|discriminate].
      destruct (step st <? length l)%nat.
      * destruct (PyStr.contains "branch" (nth (step st) l ""%string));
          destruct (PyDict.get (nth (step st) l ""%string)
                      (pipeline_methods self)); try discriminate;
          destruct (s (dat st) (results st) options); discriminate.
      * injection E as <-. injection H as <-. exact Htrack.
    + discriminate.
    + discriminate.
Qed.

(** What a successful run hands back: the timers of a state that tracks the
    calls the run made. *)
Lemma Process_Image_success
    (Read_Image : value -> pydict value -> read_result)
    (self : Isophote_Pipeline) (clock : nat -> float) (fuel : nat)
    (options : pydict value) (r : image_run) (t : pydict float) :
  Process_Image Read_Image self clock fuel options = Some r ->
  returned r = Returns (Success t) ->
  NoDup (PyDict.keys t)
  /\ forall k, In k (PyDict.keys t) <-> In k (regular_calls (run_calls r)).
Proof.
  unfold Process_Image. intros H Hret.
  destruct (resolve_name options) as [[name options1]|];
    [|injection H as <-; discriminate].
  destruct (PyDict.get "image_file" options1);
    [|injection H as <-; discriminate].
  destruct (Read_Image v options1) as [|[dat0|]];
    try (injection H as <-; discriminate).
  destruct (shape0 dat0 =? 0)%nat; [injection H as <-; discriminate|].
  destruct (chunk_missing dat0); [injection H as <-; discriminate|].
  destruct (run_loop self clock options1 name (clock 0) fuel
              (initial_state dat0)) as [[st|st|e st]|] eqn:E;
    try discriminate; injection H as <-; try discriminate.
  cbn [ended returned run_calls] in *. injection Hret as <-.
  apply (run_loop_track _ _ _ _ _ _ _ _ E).
  split; [constructor|]. intros k. simpl. tauto.
Qed.

(** C5, as the claim states it, fails: with the head sequence
    [background, background] two regular steps are executed and the run
    succeeds, but the timers dict, keyed by step name, has one entry. *)
Lemma repeated_step_one_timer :
  option_map
    (fun r =>
       (match returned r with
        | Returns (Success t) => Some (length t)
        | _ => None
        end,
        length (regular_calls (run_calls r))))
    (Process_Image (Fixture.reads Fixture.one_pixel) Fixture.twice
       Fixture.tick_clock 5 (Fixture.options_for "img.fits"))
  = Some (Some 1, 2).
Proof. vm_compute. reflexivity. Qed.

(** C5 (amended): when the run of an image succeeds, the keys of the
    returned timers are exactly the names under which regular steps were
    executed, each name once however often it ran: the number of entries
    is the number of distinct such names, at most the number of regular
    executions, and no key contains "branch". *)
Theorem timers_are_regular_step_names
    (Read_Image : value -> pydict value -> read_result)
    (self : Isophote_Pipeline) (clock : nat -> float) (fuel : nat)
    (options : pydict value) (r : image_run) (t : pydict float) :
  Process_Image Read_Image self clock fuel options = Some r ->
  returned r = Returns (Success t) ->
  (forall k, In k (PyDict.keys t) <-> In k (regular_calls (run_calls r)))
  /\ length t = length (nodup string_dec (regular_calls (run_calls r)))
  /\ length t <= length (regular_calls (run_calls r))
  /\ forall k, In k (PyDict.keys t) -> PyStr.contains "branch" k = false.
Proof.
  intros H Hret.
  destruct (Process_Image_success _ _ _ _ _ _ _ H Hret) as [Hnd Hkeys].
  split; [exact Hkeys|].
  assert (Hlen : length t = length (PyDict.keys t))
    by (unfold PyDict.keys; now rewrite length_map).
  rewrite Hlen. split; [|split].
  - apply Permutation_length, NoDup_Permutation;
      [exact Hnd | apply NoDup_nodup |].
    intros k. now rewrite nodup_In.
  - apply NoDup_incl_length; [exact Hnd|]. intros k. apply Hkeys.
  - intros k Hk. apply Hkeys in Hk. unfold regular_calls in Hk.
    apply filter_In in Hk. destruct Hk as [_ Hk].
    now destruct (PyStr.contains "branch" k).
Qed.

Lemma timers_are_regular_step_names_witness :
  exists r t,
    Process_Image (Fixture.reads Fixture.one_pixel) Fixture.forked
      Fixture.tick_clock 9 (Fixture.options_for "img.fits") = Some r
    /\ returned r = Returns (Success t)
    /\ (forall k, In k (PyDict.keys t) <-> In k (regular_calls (run_calls r)))
    /\ length t = length (nodup string_dec (regular_calls (run_calls r)))
    /\ length t <= length (regular_calls (run_calls r))
    /\ forall k, In k (PyDict.keys t) -> PyStr.contains "branch" k = false.
Proof.
  eexists. eexists. split; [lazy; reflexivity|]. split; [reflexivity|].
  eapply (timers_are_regular_step_names (Fixture.reads Fixture.one_pixel)
            Fixture.forked Fixture.tick_clock 9
            (Fixture.options_for "img.fits")).
  - lazy. reflexivity.
  - reflexivity.
Defined.

(** ** The aggregation of the timers (lines 201-218) *)

Lemma fsum_snoc (l : list float) (x : float) :
  fsum (l ++ [x])
  = Some (match fsum l with Some a => PrimFloat.add a x | None => x end).
Proof.
  destruct l as [|y l]; simpl; [reflexivity|].
  now rewrite fold_left_app.
Qed.

Lemma fcount_snoc (l : list float) (x : float) :
  fcount (l ++ [x])
  = Some (match fcount l with
          | Some c => PrimFloat.add c PrimFloat.one
          | None => PrimFloat.one
          end).
Proof.
  destruct l as [|y l]; simpl; [reflexivity|].
  rewrite length_app, Nat.add_1_r. reflexivity.
Qed.

Lemma tracks_ext (timers counts : pydict float) (h h' : string -> list float) :
  (forall X, h X = h' X) -> tracks timers counts h -> tracks timers counts h'.
Proof.
  intros Heq [Hnd Hh]. split; [exact Hnd|]. intros X. rewrite <- Heq. apply Hh.
Qed.

Lemma tracks_push (timers counts : pydict float) (h : string -> list float)
    (s : string) (x : float) :
  tracks timers counts h ->
  tracks
    (PyDict.set s (match PyDict.get s timers with
                   | Some a => PrimFloat.add a x
                   | None => x
                   end) timers)
    (PyDict.set s (match PyDict.get s counts with
                   | Some c => PrimFloat.add c PrimFloat.one
                   | None => PrimFloat.one
                   end) counts)
    (fun X => h X ++ (if String.eqb s X then [x] else [])).
Proof.
  intros [Hnd Hh]. split; [now apply NoDup_keys_set|].
  intros X. destruct (String.eqb_spec s X) as [<-|Hne].
  - rewrite !get_set_same, fsum_snoc, fcount_snoc.
    destruct (Hh s) as [-> ->]. now split.
  - rewrite !get_set_other by congruence. rewrite app_nil_r. apply Hh.
Qed.

Lemma add_timers_spec (r : pydict float) :
  NoDup (PyDict.keys r) ->
  forall timers counts h,
    tracks timers counts h ->
    exists t' c',
      add_timers r timers counts = Returns (t', c')
      /\ tracks t' c'
           (fun X => h X ++ match PyDict.get X r with
                            | Some x => [x]
                            | None => []
                            end).
Proof.
  induction r as [|[s x] r IH]; intros Hnd timers counts h Htr.
  - exists timers, counts. split; [reflexivity|].
    eapply tracks_ext; [|exact Htr]. intros X. simpl. now rewrite app_nil_r.
  - simpl in Hnd. inversion Hnd as [|? ? Hs Hnd']; subst.
    pose proof (tracks_push _ _ _ s x Htr) as Hpush.
    assert (Hgets :
      match PyDict.get s timers with
      | Some _ => PyDict.get s counts <> None
      | None => PyDict.get s counts = None
      end).
    { destruct Htr as [_ Hh]. destruct (Hh s) as [-> ->].
      destruct (h s); simpl; congruence. }
    cbn [add_timers].
    destruct (PyDict.get s timers) as [total|];
      destruct (PyDict.get s counts) as [c|]; try congruence;
      destruct (IH Hnd' _ _ _ Hpush) as (t' & c' & Hrun & Htr');
      exists t', c'; (split; [exact Hrun|]);
      (eapply tracks_ext; [|exact Htr']); intros X; cbn [PyDict.get];
      (destruct (String.eqb_spec s X) as [<-|Hne];
       [ apply get_None_iff in Hs; rewrite Hs; now rewrite app_nil_r
       | now rewrite app_nil_r ]).
Qed.

Lemma sum_timers_spec (res : list outcome) :
  (forall t, In (Success t) res -> NoDup (PyDict.keys t)) ->
  forall timers counts h,
    tracks timers counts h ->
    exists t' c',
      sum_timers res timers counts = Returns (t', c')
      /\ tracks t' c' (fun X => h X ++ timings_of X res).
Proof.
  induction res as [|[r|] res IH]; intros Hnd timers counts h Htr.
  - exists timers, counts. split; [reflexivity|].
    eapply tracks_ext; [|exact Htr]. intros X. simpl. now rewrite app_nil_r.
  - destruct (add_timers_spec r (Hnd r (or_introl eq_refl)) _ _ _ Htr)
      as (t1 & c1 & Hadd & Htr1).
    destruct (IH (fun t Ht => Hnd t (or_intror Ht)) _ _ _ Htr1)
      as (t' & c' & Hsum & Htr').
    exists t', c'. split.
    + cbn [sum_timers bind]. rewrite Hadd. exact Hsum.
    + eapply tracks_ext; [|exact Htr']. intros X. simpl.
      now rewrite app_assoc.
  - destruct (IH (fun t Ht => Hnd t (or_intror Ht)) _ _ _ Htr)
      as (t' & c' & Hsum & Htr').
    exists t', c'. split; [exact Hsum|]. exact Htr'.
Qed.

Lemma average_timers_spec (todo : list string) :
  NoDup todo ->
  forall timers counts,
    (forall s, In s todo ->
       exists a c, PyDict.get s timers = Some a /\ PyDict.get s counts = Some c) ->
    exists t' lines,
      average_timers todo timers counts = Returns (t', lines)
      /\ forall X,
           (In X todo ->
              exists a c, PyDict.get X timers = Some a
                          /\ PyDict.get X counts = Some c
                          /\ PyDict.get X (reported_means lines)
                             = Some (PrimFloat.div a c))
           /\ (~ In X todo -> PyDict.get X (reported_means lines) = None).
Proof.
  induction todo as [|s todo IH]; intros Hnd timers counts Hall.
  - exists timers, []. split; [reflexivity|]. intros X. split; [intros []|].
    reflexivity.
  - inversion Hnd as [|? ? Hs Hnd']; subst.
    destruct (Hall s (or_introl eq_refl)) as (a & c & Ha & Hc).
    destruct (IH Hnd' (PyDict.set s (PrimFloat.div a c) timers) counts)
      as (t' & lines & Hrun & Hlines).
    { intros s' Hs'. destruct (Hall s' (or_intror Hs')) as (a' & c' & Ha' & Hc').
      exists a', c'. rewrite get_set_other by congruence. now split. }
    exists t', (LogInfo (MsgAverage s (PrimFloat.div a c)) :: lines).
    split.
    + cbn [average_timers]. rewrite Ha, Hc. cbn [bind]. rewrite Hrun.
      reflexivity.
    + intros X. cbn [reported_means PyDict.get].
      destruct (String.eqb_spec s X) as [<-|Hne].
      * split; [intros _; exists a, c; now repeat split|].
        intros Hn. exfalso. apply Hn. now left.
      * destruct (Hlines X) as [Hin Hout]. split.
        -- intros [?|HX]; [congruence|].
           destruct (Hin HX) as (a' & c' & Ha' & Hc' & Hm).
           rewrite get_set_other in Ha' by congruence. eauto.
        -- intros Hn. apply Hout. intros HX. apply Hn. now right.
Qed.

Lemma fsum_None (l : list float) : fsum l = None <-> l = [].
Proof. destruct l; simpl; split; congruence. Qed.

Lemma timings_of_in (X : string) (res : list outcome) (t : pydict float)
    (x : float) :
  In (Success t) res -> PyDict.get X t = Some x -> In x (timings_of X res).
Proof.
  intros Hin Hget. unfold timings_of. apply in_flat_map.
  exists (Success t). split; [exact Hin|]. rewrite Hget. now left.
Qed.

Lemma timings_of_nil (X : string) (res : list outcome) :
  (forall t, In (Success t) res -> PyDict.get X t = None) ->
  timings_of X res = [].
Proof.
  induction res as [|[t|] res IH]; intros H; simpl; [reflexivity| |].
  - rewrite (H t (or_introl eq_refl)). simpl.
    apply IH. intros t' Ht'. apply H. now right.
  - apply IH. intros t' Ht'. apply H. now right.
Qed.

(** What the report (lines 200-221) returns and logs for the results
    [res]. *)
Lemma report_spec (elapsed : float) (res : list outcome) :
  (forall t, In (Success t) res -> NoDup (PyDict.keys t)) ->
  exists v l,
    report elapsed res = (Returns v, l)
    /\ (forall X, PyDict.get X (reported_means l)
                  = arithmetic_mean (timings_of X res))
    /\ ((exists t, In (Success t) res /\ t <> []) -> v = Outcomes res)
    /\ ((forall o, In o res -> o = Failure) ->
          v = NoValue
          /\ l = [LogInfo (MsgAllFinished elapsed); LogError MsgAllFailed]).
Proof.
  intros Hnd. unfold report.
  destruct (sum_timers_spec res Hnd [] [] (fun _ => []))
    as (timers & counts & Hsum & Hkeys & Hh).
  { split; [constructor|]. intros X. now split. }
  rewrite Hsum. simpl app in Hh.
  destruct timers as [|[k0 v0] timers'] eqn:Et.
  - (* nothing was timed *)
    cbn [length Nat.eqb]. eexists. eexists. split; [reflexivity|].
    assert (Hnone : forall X, timings_of X res = []).
    { intros X. apply fsum_None. destruct (Hh X) as [<- _]. reflexivity. }
    split; [|split].
    + intros X. rewrite Hnone. reflexivity.
    + intros (t & Hin & Hne). destruct t as [|[k x] t]; [congruence|].
      exfalso. pose proof (timings_of_in k res _ x Hin) as Hx.
      rewrite Hnone in Hx. apply Hx. simpl. now rewrite String.eqb_refl.
    + intros _. now split.
  - rewrite <- Et in *. 
    assert (Hlen : (length timers =? 0)%nat = false) by now rewrite Et.
    rewrite Hlen.
    destruct (average_timers_spec (PyDict.keys timers) Hkeys timers counts)
      as (t' & lines & Hrun & Hlines).
    { intros s Hs. apply in_keys_get in Hs. destruct Hs as [a Ha].
      destruct (Hh s) as [Hs Hc]. rewrite Hc.
      destruct (timings_of s res); simpl in *; [congruence|]. eauto. }
    rewrite Hrun. eexists. eexists. split; [reflexivity|].
    split; [|split].
    + intros X. cbn [app reported_means].
      destruct (Hlines X) as [Hin Hout]. destruct (Hh X) as [Hs Hc].
      destruct (in_dec string_dec X (PyDict.keys timers)) as [HX|HX].
      * destruct (Hin HX) as (a & c & Ha & Hcc & ->).
        rewrite Ha in Hs. rewrite Hcc in Hc.
        destruct (timings_of X res); simpl in *; [congruence|].
        congruence.
      * rewrite (Hout HX). apply get_None_iff in HX. rewrite HX in Hs.
        symmetry in Hs. apply fsum_None in Hs. now rewrite Hs.
    + reflexivity.
    + intros Hfail. exfalso.
      assert (Hin : In k0 (PyDict.keys timers)) by (rewrite Et; now left).
      apply in_keys_get in Hin. destruct Hin as [a Ha].
      destruct (Hh k0) as [Hs _]. rewrite Ha in Hs.
      rewrite (timings_of_nil k0 res) in Hs; [discriminate|].
      intros t Ht. apply Hfail in Ht. discriminate.
Qed.

(** ** The per-image options (lines 176-187) *)

Lemma index_options_get (i : nat) (todo : pydict value) :
  NoDup (PyDict.keys todo) ->
  forall tmp out,
    index_options i todo tmp = Returns out ->
    forall k, PyDict.get k out
              = match PyDict.get k todo with
                | Some v => pick i v
                | None => PyDict.get k tmp
                end.
Proof.
  induction todo as [|[k0 v0] todo IH]; intros Hnd tmp out Hrun k.
  - simpl in *. congruence.
  - simpl in Hnd. inversion Hnd as [|? ? Hk0 Hnd']; subst.
    assert (Hstep : exists x, pick i v0 = Some x
                      /\ index_options i todo (PyDict.set k0 x tmp)
                         = Returns out).
    { destruct v0; cbn [index_options pick] in *; eauto.
      destruct (nth_error l i); [eauto|discriminate]. }
    destruct Hstep as (x & Hpick & Hrest).
    rewrite (IH Hnd' _ _ Hrest k). cbn [PyDict.get].
    destruct (String.eqb_spec k0 k) as [<-|Hne].
    + apply get_None_iff in Hk0. rewrite Hk0, get_set_same. now symmetry.
    + rewrite get_set_other by congruence. reflexivity.
Qed.

Lemma each_index_seq (options : pydict value) (n : nat) :
  forall a use,
    each_index options (seq a n) = Returns use ->
    length use = n
    /\ forall j o, nth_error use j = Some o ->
                   index_options (a + j) options [] = Returns o.
Proof.
  induction n as [|n IH]; intros a use H; cbn [seq each_index] in H.
  - injection H as <-. split; [reflexivity|]. intros [|j] o; discriminate.
  - destruct (index_options a options []) as [tmp|] eqn:E; [|discriminate].
    cbn [bind] in H.
    destruct (each_index options (seq (S a) n)) as [rest|] eqn:E';
      [|discriminate].
    cbn [bind] in H. injection H as <-.
    destruct (IH _ _ E') as [Hlen Hnth]. split; [simpl; congruence|].
    intros [|j] o Ho; simpl in Ho.
    + injection Ho as <-. now rewrite Nat.add_0_r.
    + rewrite <- plus_n_Sm. now apply (Hnth j o).
Qed.

Lemma has_list_not_all_scalar (options : pydict value) (k : string)
    (l : list value) :
  PyDict.get k options = Some (VList l) ->
  forallb (fun kv => negb (is_list (snd kv))) options = false.
Proof.
  induction options as [|[k' v'] options IH]; simpl; [discriminate|].
  destruct (String.eqb k' k).
  - intros [= ->]. reflexivity.
  - intros H. rewrite (IH H). apply andb_false_r.
Qed.

Lemma prepare_spec (options : pydict value) (images : list value)
    (use : list (pydict value)) (parallel : bool) :
  prepare options = Returns (images, use, parallel) ->
  PyDict.get "image_file" options = Some (VList images)
  /\ each_index options (seq 0 (length images)) = Returns use.
Proof.
  unfold prepare. intros H.
  destruct (PyDict.get "image_file" options) as [[| | | | |l|]|] eqn:E;
    try discriminate.
  unfold broadcast in H. rewrite (has_list_not_all_scalar _ _ _ E) in H.
  destruct (each_index options (seq 0 (length l))) as [u|] eqn:E';
    [|discriminate].
  cbn [bind] in H.
  destruct (PyDict.get "n_procs" options); [|discriminate].
  destruct (more_than_one v); [|discriminate].
  cbn [bind] in H. injection H as <- <- <-. now split.
Qed.

(** ** The jobs of a batch (lines 192-197) *)

Section JobFacts.
Variable Read_Image : value -> pydict value -> read_result.
Variable self : Isophote_Pipeline.
Variable job_clock : nat -> nat -> float.
Variable fuel : nat.

Lemma jobs_return_length (use : list (pydict value)) :
  forall i outs,
    jobs_return Read_Image self job_clock fuel i use outs ->
    length outs = length use.
Proof.
  induction use as [|o use IH]; intros i [|out outs] H; simpl in *;
    try tauto.
  destruct H as [_ H]. now rewrite (IH _ _ H).
Qed.

Lemma jobs_return_wf (use : list (pydict value)) :
  forall i outs,
    jobs_return Read_Image self job_clock fuel i use outs ->
    forall t, In (Success t) outs -> NoDup (PyDict.keys t).
Proof.
  induction use as [|o use IH]; intros i [|out outs] H t Hin; simpl in *;
    try tauto.
  destruct H as [(r & Hrun & Hret) H]. destruct Hin as [->|Hin].
  - apply (Process_Image_success _ _ _ _ _ _ _ Hrun Hret).
  - apply (IH _ _ H t Hin).
Qed.

Lemma map_sequential_spec (use : list (pydict value)) :
  forall i outs,
    jobs_return Read_Image self job_clock fuel i use outs ->
    exists runs,
      map_sequential Read_Image self job_clock fuel i use = Some runs
      /\ gather runs = Returns outs
      /\ map returned runs = map Returns outs.
Proof.
  induction use as [|o use IH]; intros i [|out outs] H; simpl in H;
    try tauto.
  - exists []. now repeat split.
  - destruct H as [(r & Hrun & Hret) H].
    destruct (IH _ _ H) as (runs & Hmap & Hg & Hr).
    exists (r :: runs). cbn [map_sequential gather map].
    rewrite Hrun, Hret, Hmap. cbn [bind]. rewrite Hg, Hr. now repeat split.
Qed.

Lemma pool_map_spec (chunksize : nat) (use : list (pydict value)) :
  forall i outs,
    jobs_return Read_Image self job_clock fuel i use outs ->
    exists runs,
      pool_map Read_Image self job_clock fuel chunksize i use = Some runs
      /\ gather runs = Returns outs
      /\ map returned runs = map Returns outs.
Proof.
  induction use as [|o use IH]; intros i [|out outs] H; simpl in H;
    try tauto.
  - exists []. now repeat split.
  - destruct H as [(r & Hrun & Hret) H].
    destruct (IH _ _ H) as (runs & Hmap & Hg & Hr).
    exists (r :: runs). cbn [pool_map gather map].
    rewrite Hrun, Hret, Hmap. cbn [bind]. rewrite Hg, Hr. now repeat split.
Qed.

(** When every job returns, [Process_List] ends with the report on their
    outcomes, in the sequential mode and in the pool mode alike. *)
Lemma Process_List_report (clock : nat -> float) (options : pydict value)
    (images : list value) (use : list (pydict value)) (parallel : bool)
    (outs : list outcome) :
  prepare options = Returns (images, use, parallel) ->
  jobs_return Read_Image self job_clock fuel 0 use outs ->
  exists b,
    Process_List Read_Image self job_clock fuel clock options = Some b
    /\ (batch_returned b, batch_log b)
       = report (PrimFloat.sub (clock 1) (clock 0)) outs
    /\ map returned (batch_jobs b) = map Returns outs.
Proof.
  intros Hprep Hjobs. unfold Process_List. rewrite Hprep.
  assert (Hruns : exists runs,
            (if parallel
             then pool_map Read_Image self job_clock fuel
                    (if (100 <? length images)%nat then 5 else 1) 0 use
             else map_sequential Read_Image self job_clock fuel 0 use)
            = Some runs
            /\ gather runs = Returns outs
            /\ map returned runs = map Returns outs).
  { destruct parallel;
      [now apply pool_map_spec | now apply map_sequential_spec]. }
  destruct Hruns as (runs & -> & -> & Hr).
  destruct (report (PrimFloat.sub (clock 1) (clock 0)) outs) as [r l].
  eexists. split; [reflexivity|]. now split.
Qed.
End JobFacts.

(** ** Process_List (lines 167-221) *)

(** C1, as the claim states it, fails when every job fails: the two jobs
    return the failure value, and [Process_List] returns nothing (the bare
    [return] of line 215), not the list of the two failures. *)
Lemma all_failed_returns_nothing :
  option_map (fun b => (map returned (batch_jobs b), batch_returned b))
    (Process_List Fixture.unreadable Fixture.forked Fixture.job_clock 9
       Fixture.tick_clock (Fixture.batch_options ["a.fits"; "b.fits"]%string))
  = Some ([Returns Failure; Returns Failure], Returns NoValue).
Proof. vm_compute. reflexivity. Qed.

(** C1 (amended): for a batch over N images whose jobs all return, the
    per-image options number N and the i-th carries the i-th image, the
    i-th job run is the one of the i-th options, and, in sequential and in
    pool mode alike, [Process_List] returns the list of the N outcomes in
    input order whenever some job succeeded with a non-empty Timing; when
    every job fails it logs the summary error and returns no value. *)
Theorem Process_List_outcomes
    (Read_Image : value -> pydict value -> read_result)
    (self : Isophote_Pipeline) (job_clock : nat -> nat -> float)
    (fuel : nat) (clock : nat -> float) (options : pydict value)
    (images : list value) (use : list (pydict value)) (parallel : bool)
    (outs : list outcome) :
  NoDup (PyDict.keys options) ->
  prepare options = Returns (images, use, parallel) ->
  jobs_return Read_Image self job_clock fuel 0 use outs ->
  length outs = length images
  /\ (forall i o, nth_error use i = Some o ->
        PyDict.get "image_file" o = nth_error images i)
  /\ exists b,
       Process_List Read_Image self job_clock fuel clock options = Some b
       /\ map returned (batch_jobs b) = map Returns outs
       /\ ((exists t, In (Success t) outs /\ t <> []) ->
             batch_returned b = Returns (Outcomes outs))
       /\ ((forall o, In o outs -> o = Failure) ->
             batch_returned b = Returns NoValue
             /\ In (LogError MsgAllFailed) (batch_log b)).
Proof.
  intros Hnd Hprep Hjobs.
  destruct (prepare_spec _ _ _ _ Hprep) as [Hfile Heach].
  destruct (each_index_seq _ _ _ _ Heach) as [Hlen Hnth].
  split; [|split].
  - rewrite (jobs_return_length _ _ _ _ _ _ _ Hjobs). exact Hlen.
  - intros i o Ho. specialize (Hnth i o Ho). simpl in Hnth.
    rewrite (index_options_get i options Hnd [] o Hnth "image_file"%string).
    rewrite Hfile. reflexivity.
  - destruct (Process_List_report _ _ _ _ clock _ _ _ _ _ Hprep Hjobs)
      as (b & Hb & Hrep & Hruns).
    destruct (report_spec (PrimFloat.sub (clock 1) (clock 0)) outs
                (jobs_return_wf _ _ _ _ _ _ _ Hjobs))
      as (v & l & Hreport & _ & Hsome & Hnone).
    rewrite Hreport in Hrep. injection Hrep as Hv Hl.
    exists b. split; [exact Hb|]. split; [exact Hruns|]. split.
    + intros Hex. now rewrite Hv, (Hsome Hex).
    + intros Hfail. destruct (Hnone Hfail) as [-> ->].
      split; [exact Hv|]. rewrite Hl. simpl. auto.
Qed.

Lemma Process_List_outcomes_witness :
  exists b,
    Process_List (Fixture.reads_except "b.fits") Fixture.forked
      Fixture.job_clock 9 Fixture.tick_clock
      (Fixture.batch_options Fixture.three_files) = Some b
    /\ batch_returned b = Returns (Outcomes Fixture.three_outcomes).
Proof.
  edestruct (Process_List_outcomes (Fixture.reads_except "b.fits")
               Fixture.forked Fixture.job_clock 9 Fixture.tick_clock
               (Fixture.batch_options Fixture.three_files)
               (map VStr Fixture.three_files) Fixture.three_options false
               Fixture.three_outcomes)
    as (_ & _ & b & Hb & _ & Hsome & _).
  - repeat constructor; simpl; intuition discriminate.
  - lazy. reflexivity.
  - lazy. repeat split; eexists; split; reflexivity.
  - exists b. split; [exact Hb|]. apply Hsome.
    eexists. split; [left; reflexivity | discriminate].
Defined.

(** C7: for a batch whose jobs all return, the mean logged for a step name
    [X] is the arithmetic mean of [Timing[X]] over the successes whose
    Timing has the key [X]; a name that no success has gets no mean; and
    when no job succeeds the log is the line of completion followed by the
    "all images failed" error, with no mean at all. *)
Theorem Process_List_means
    (Read_Image : value -> pydict value -> read_result)
    (self : Isophote_Pipeline) (job_clock : nat -> nat -> float)
    (fuel : nat) (clock : nat -> float) (options : pydict value)
    (images : list value) (use : list (pydict value)) (parallel : bool)
    (outs : list outcome) :
  prepare options = Returns (images, use, parallel) ->
  jobs_return Read_Image self job_clock fuel 0 use outs ->
  exists b,
    Process_List Read_Image self job_clock fuel clock options = Some b
    /\ (forall X, PyDict.get X (reported_means (batch_log b))
                  = arithmetic_mean (timings_of X outs))
    /\ (forall X, (forall t, In (Success t) outs -> PyDict.get X t = None) ->
                  PyDict.get X (reported_means (batch_log b)) = None)
    /\ ((forall o, In o outs -> o = Failure) ->
          batch_log b
          = [LogInfo (MsgAllFinished (PrimFloat.sub (clock 1) (clock 0)));
             LogError MsgAllFailed]
          /\ reported_means (batch_log b) = []).
Proof.
  intros Hprep Hjobs.
  destruct (Process_List_report _ _ _ _ clock _ _ _ _ _ Hprep Hjobs)
    as (b & Hb & Hrep & _).
  destruct (report_spec (PrimFloat.sub (clock 1) (clock 0)) outs
              (jobs_return_wf _ _ _ _ _ _ _ Hjobs))
    as (v & l & Hreport & Hmeans & _ & Hnone).
  rewrite Hreport in Hrep. injection Hrep as _ Hl.
  exists b. split; [exact Hb|]. rewrite Hl. split; [exact Hmeans|]. split.
  - intros X HX. rewrite Hmeans, (timings_of_nil X outs HX). reflexivity.
  - intros Hfail. destruct (Hnone Hfail) as [_ ->]. now split.
Qed.

Lemma Process_List_means_witness :
  exists b,
    Process_List (Fixture.reads_except "b.fits") Fixture.forked
      Fixture.job_clock 9 Fixture.tick_clock
      (Fixture.batch_options Fixture.three_files) = Some b
    /\ PyDict.get "writeprof" (reported_means (batch_log b))
       = arithmetic_mean [PrimFloat.one; PrimFloat.one]
    /\ PyDict.get "center" (reported_means (batch_log b)) = None.
Proof.
  edestruct (Process_List_means (Fixture.reads_except "b.fits")
               Fixture.forked Fixture.job_clock 9 Fixture.tick_clock
               (Fixture.batch_options Fixture.three_files)
               (map VStr Fixture.three_files) Fixture.three_options false
               Fixture.three_outcomes)
    as (b & Hb & Hmean & Habsent & _).
  - lazy. reflexivity.
  - lazy. repeat split; eexists; split; reflexivity.
  - exists b. split; [exact Hb|]. split.
    + exact (Hmean "writeprof"%string).
    + apply Habsent.
      intros t [H|[H|[H|[]]]]; try discriminate H; injection H as <-;
        reflexivity.
Defined.

(** * Further properties *)

(** ** Merging dicts *)

Section UpdateFacts.
Context {V : Type}.
Implicit Types (d new : pydict V) (k : string).

Lemma get_update k new :
  NoDup (PyDict.keys new) ->
  forall d,
    PyDict.get k (PyDict.update d new)
    = match PyDict.get k new with
      | Some v => Some v
      | None => PyDict.get k d
      end.
Proof.
  unfold PyDict.update.
  induction new as [|[k0 v0] new IH]; intros Hnd d; [reflexivity|].
  simpl in Hnd. inversion Hnd as [|? ? Hk0 Hnd']; subst.
  cbn [fold_left fst snd PyDict.get]. rewrite (IH Hnd').
  destruct (String.eqb_spec k0 k) as [<-|Hne].
  - apply get_None_iff in Hk0. now rewrite Hk0, get_set_same.
  - rewrite get_set_other by congruence. reflexivity.
Qed.

Lemma in_keys_update k new :
  forall d,
    In k (PyDict.keys (PyDict.update d new))
    <-> In k (PyDict.keys d) \/ In k (PyDict.keys new).
Proof.
  unfold PyDict.update.
  induction new as [|[k0 v0] new IH]; intros d; cbn [fold_left fst snd].
  - simpl. tauto.
  - rewrite IH, in_keys_set. simpl. intuition congruence.
Qed.

Lemma NoDup_keys_update new :
  forall d, NoDup (PyDict.keys d) -> NoDup (PyDict.keys (PyDict.update d new)).
Proof.
  unfold PyDict.update.
  induction new as [|[k0 v0] new IH]; intros d Hnd; cbn [fold_left fst snd].
  - exact Hnd.
  - apply IH. now apply NoDup_keys_set.
Qed.

Lemma keys_update_old new :
  forall d,
    (forall k, In k (PyDict.keys new) -> In k (PyDict.keys d)) ->
    PyDict.keys (PyDict.update d new) = PyDict.keys d.
Proof.
  unfold PyDict.update.
  induction new as [|[k0 v0] new IH]; intros d Hin; cbn [fold_left fst snd].
  - reflexivity.
  - rewrite IH.
    + apply keys_set_old. apply Hin. now left.
    + intros k Hk. apply in_keys_set. right. apply Hin. now right.
Qed.

(** Two well-formed dicts with the same keys in the same order and the
    same values are the same list. *)
Lemma pydict_ext (a b : pydict V) :
  NoDup (PyDict.keys a) ->
  PyDict.keys a = PyDict.keys b ->
  (forall k, PyDict.get k a = PyDict.get k b) ->
  a = b.
Proof.
  revert b. induction a as [|[k0 va] a IH]; intros [|[k1 vb] b] Hnd Hkeys Hget;
    try discriminate; [reflexivity|].
  simpl in Hkeys. injection Hkeys as <- Hkeys.
  simpl in Hnd. inversion Hnd as [|? ? Hk0 Hnd']; subst.
  pose proof (Hget k0) as H0. simpl in H0. rewrite String.eqb_refl in H0.
  injection H0 as <-. f_equal. apply IH; [exact Hnd' | exact Hkeys |].
  intros k. specialize (Hget k). simpl in Hget.
  destruct (String.eqb_spec k0 k) as [Heq|Hne]; [|exact Hget].
  subst k. pose proof Hk0 as Hk0'. rewrite Hkeys in Hk0'.
  apply get_None_iff in Hk0. apply get_None_iff in Hk0'. congruence.
Qed.

Lemma update_twice d new :
  NoDup (PyDict.keys d) -> NoDup (PyDict.keys new) ->
  PyDict.update (PyDict.update d new) new = PyDict.update d new.
Proof.
  intros Hd Hnew. apply pydict_ext.
  - now apply NoDup_keys_update, NoDup_keys_update.
  - apply keys_update_old. intros k Hk. apply in_keys_update. now right.
  - intros k. rewrite !get_update by assumption.
    now destruct (PyDict.get k new).
Qed.

Lemma set_twice k (v : V) d :
  PyDict.set k v (PyDict.set k v d) = PyDict.set k v d.
Proof.
  induction d as [|[k' v'] d IH]; simpl.
  - now rewrite String.eqb_refl.
  - destruct (String.eqb k' k) eqn:E; simpl; rewrite E; [reflexivity|].
    now rewrite IH.
Qed.
End UpdateFacts.

(** ** UpdatePipeline: the registry (lines 88-90) *)

(** X1: a non-empty [new_pipeline_methods] is merged into the registry:
    a name it binds is bound to its function afterwards, every other name
    keeps the function it had, no name is lost, and the sequences are not
    touched. *)
Theorem UpdatePipeline_methods_merge (self : Isophote_Pipeline)
    (m : pydict step_fn) :
  m <> [] ->
  NoDup (PyDict.keys m) ->
  upd_end (UpdatePipeline self (Some m) None) = Returns tt
  /\ (forall k,
        PyDict.get k (pipeline_methods
                        (upd_self (UpdatePipeline self (Some m) None)))
        = match PyDict.get k m with
          | Some f => Some f
          | None => PyDict.get k (pipeline_methods self)
          end)
  /\ (forall k,
        In k (PyDict.keys (pipeline_methods self)) ->
        In k (PyDict.keys (pipeline_methods
                             (upd_self (UpdatePipeline self (Some m) None)))))
  /\ pipeline_steps (upd_self (UpdatePipeline self (Some m) None))
     = pipeline_steps self.
Proof.
  intros Hne Hnd. destruct m as [|kv m]; [congruence|].
  unfold UpdatePipeline. cbn [PyDict.truthy upd_end upd_self pipeline_methods
                               pipeline_steps].
  split; [reflexivity|]. split; [|split; [|reflexivity]].
  - intros k. now apply get_update.
  - intros k Hk. apply in_keys_update. now left.
Qed.

Lemma UpdatePipeline_methods_merge_witness :
  PyDict.get "psf"
    (pipeline_methods
       (upd_self (UpdatePipeline (init (fun _ => Fixture.pass))
                    (Some [("psf"%string, PSF_IRAF);
                           ("branch skip"%string, Fixture.stay)]) None)))
  = Some PSF_IRAF.
Proof.
  destruct (UpdatePipeline_methods_merge (init (fun _ => Fixture.pass))
              [("psf"%string, PSF_IRAF); ("branch skip"%string, Fixture.stay)])
    as (_ & Hget & _).
  - discriminate.
  - repeat constructor; simpl; intuition discriminate.
  - exact (Hget "psf"%string).
Defined.

(** X2: the two updates of one call are not undone together: when the
    sequence mapping lacks "head" the call raises AssertionError with the
    sequences as they were, but the registry has already taken the new
    methods. *)
Theorem UpdatePipeline_raise_keeps_methods (self : Isophote_Pipeline)
    (m : pydict step_fn) (d : pydict (list string)) :
  m <> [] ->
  NoDup (PyDict.keys m) ->
  d <> [] ->
  PyDict.mem "head" d = false ->
  upd_end (UpdatePipeline self (Some m) (Some (StepsDict d)))
    = Raises AssertionError
  /\ pipeline_steps (upd_self (UpdatePipeline self (Some m) (Some (StepsDict d))))
     = pipeline_steps self
  /\ forall k f,
       PyDict.get k m = Some f ->
       PyDict.get k
         (pipeline_methods
            (upd_self (UpdatePipeline self (Some m) (Some (StepsDict d)))))
       = Some f.
Proof.
  intros Hm Hnd Hd Hhead.
  destruct m as [|kv m]; [congruence|]. destruct d as [|kv' d]; [congruence|].
  unfold UpdatePipeline. cbn [PyDict.truthy steps_truthy]. rewrite Hhead.
  cbn [upd_end upd_self pipeline_methods pipeline_steps].
  split; [reflexivity|]. split; [reflexivity|].
  intros k f Hk. rewrite get_update by exact Hnd. now rewrite Hk.
Qed.

Lemma UpdatePipeline_raise_keeps_methods_witness :
  upd_end (UpdatePipeline Fixture.forked (Some [("background"%string, Sample.fails)])
             (Some (StepsDict [("tail"%string, ["writeprof"%string])])))
    = Raises AssertionError
  /\ PyDict.get "background"
       (pipeline_methods
          (upd_self (UpdatePipeline Fixture.forked
                       (Some [("background"%string, Sample.fails)])
                       (Some (StepsDict [("tail"%string, ["writeprof"%string])])))))
     = Some Sample.fails.
Proof.
  destruct (UpdatePipeline_raise_keeps_methods Fixture.forked
              [("background"%string, Sample.fails)]
              [("tail"%string, ["writeprof"%string])])
    as (Hend & _ & Hget).
  - discriminate.
  - repeat constructor; simpl; intuition.
  - discriminate.
  - reflexivity.
  - split; [exact Hend|]. now apply Hget.
Defined.

(** X3: [UpdatePipeline] is idempotent on a well-formed registry: the same
    call made a second time ends the same way and leaves the object as the
    first call left it. *)
Theorem UpdatePipeline_idempotent (self : Isophote_Pipeline)
    (m : option (pydict step_fn)) (a : option steps_arg) :
  NoDup (PyDict.keys (pipeline_methods self)) ->
  (forall m', m = Some m' -> NoDup (PyDict.keys m')) ->
  upd_self (UpdatePipeline (upd_self (UpdatePipeline self m a)) m a)
  = upd_self (UpdatePipeline self m a)
  /\ upd_end (UpdatePipeline (upd_self (UpdatePipeline self m a)) m a)
     = upd_end (UpdatePipeline self m a).
Proof.
  intros Hself Hm.
  assert (Hmeth : forall m', m = Some m' ->
            PyDict.update (PyDict.update (pipeline_methods self) m') m'
            = PyDict.update (pipeline_methods self) m').
  { intros m' E. apply update_twice; [exact Hself | now apply Hm]. }
  unfold UpdatePipeline.
  destruct m as [[|kv m']|]; cbn [PyDict.truthy];
    try specialize (Hmeth _ eq_refl);
    (destruct a as [[[|s l]|d|[|]]|]; cbn [steps_truthy];
     [ | | destruct d as [|kv' d]; cbn [PyDict.truthy];
           [|destruct (PyDict.mem "head" (kv' :: d)) eqn:E] | | | ]);
    cbn [upd_self upd_end pipeline_methods pipeline_steps];
    rewrite ?E; cbn [upd_self upd_end pipeline_methods pipeline_steps];
    rewrite ?Hmeth, ?set_twice; try (now split); destruct self; now split.
Qed.

Lemma UpdatePipeline_idempotent_witness :
  upd_self (UpdatePipeline
              (upd_self (UpdatePipeline Fixture.forked
                           (Some [("background"%string, Sample.fails)])
                           (Some (StepsList ["background"%string]))))
              (Some [("background"%string, Sample.fails)])
              (Some (StepsList ["background"%string])))
  = upd_self (UpdatePipeline Fixture.forked
                (Some [("background"%string, Sample.fails)])
                (Some (StepsList ["background"%string]))).
Proof.
  apply (UpdatePipeline_idempotent Fixture.forked
           (Some [("background"%string, Sample.fails)])
           (Some (StepsList ["background"%string]))).
  - repeat constructor; simpl; intuition discriminate.
  - intros m' [= <-]. repeat constructor; simpl; intuition.
Defined.

(** ** The configuration phase (lines 250-271) *)

Lemma UpdatePipeline_headless (self : Isophote_Pipeline)
    (d : pydict (list string)) :
  PyDict.mem "head" d = false ->
  pipeline_steps (upd_self (UpdatePipeline self None (Some (StepsDict d))))
  = pipeline_steps self
  /\ pipeline_methods (upd_self (UpdatePipeline self None (Some (StepsDict d))))
     = pipeline_methods self
  /\ (d <> [] ->
      upd_log (UpdatePipeline self None (Some (StepsDict d)))
      = [LogInfo (MsgNewSteps (StepsDict d))]).
Proof.
  intros Hhead. unfold UpdatePipeline. cbn [steps_truthy].
  destruct d as [|kv d]; cbn [PyDict.truthy].
  - repeat split. congruence.
  - rewrite Hhead. repeat split.
Qed.

(** The forced default, when the mode asks for it. *)
Lemma configure_first (self : Isophote_Pipeline) (c : config) :
  exists self1 l1,
    (if PyStr.contains "forced" (process_mode c)
     then UpdatePipeline self None (Some (StepsList forced_head))
     else {| upd_self := self; upd_end := Returns tt; upd_log := [] |})
    = {| upd_self := self1; upd_end := Returns tt; upd_log := l1 |}
    /\ pipeline_steps self1
       = (if PyStr.contains "forced" (process_mode c)
          then PyDict.set "head" forced_head (pipeline_steps self)
          else pipeline_steps self)
    /\ forall m, ~ In (LogError m) l1.
Proof.
  destruct (PyStr.contains "forced" (process_mode c)).
  - eexists. eexists. split; [reflexivity|]. split; [reflexivity|].
    intros m [H|[]]. discriminate.
  - eexists. eexists. split; [reflexivity|]. split; [reflexivity|].
    intros m [].
Qed.

(** X4: a non-empty list given as [new_pipeline_steps] in the
    configuration becomes the head sequence, in forced mode as in any
    other: the user's sequence is applied after the mode's own and wins;
    the sequences under other names stay as they were. *)
Theorem configure_user_list_wins (self : Isophote_Pipeline) (c : config)
    (l : list string) :
  new_pipeline_steps c = Some (StepsList l) ->
  l <> [] ->
  exists self',
    fst (configure self c) = Returns self'
    /\ PyDict.get "head" (pipeline_steps self') = Some l
    /\ forall k, k <> "head"%string ->
         PyDict.get k (pipeline_steps self')
         = PyDict.get k (pipeline_steps self).
Proof.
  intros Hsteps Hne. unfold configure.
  destruct (configure_first self c) as (self1 & l1 & -> & Hs1 & _).
  cbn [upd_end upd_self upd_log]. rewrite Hsteps.
  destruct (UpdatePipeline_no_steps self1 (new_pipeline_methods c))
    as (_ & Hsame).
  set (self2 := upd_self (UpdatePipeline self1 (new_pipeline_methods c) None))
    in *.
  destruct (UpdatePipeline_list self2 None l Hne) as (_ & Hhead & Hrest).
  eexists. split; [reflexivity|]. split; [exact Hhead|].
  intros k Hk. rewrite (Hrest k Hk), Hsame, Hs1.
  destruct (PyStr.contains "forced" (process_mode c)); [|reflexivity].
  now apply get_set_other.
Qed.

Lemma configure_user_list_wins_witness :
  exists self',
    fst (configure (init (fun _ => Fixture.pass))
           {| process_mode := "forced image";
              new_pipeline_methods := None;
              new_pipeline_steps := Some (StepsList ["background"; "writeprof"]%string) |})
    = Returns self'
    /\ PyDict.get "head" (pipeline_steps self')
       = Some ["background"; "writeprof"]%string.
Proof.
  destruct (configure_user_list_wins (init (fun _ => Fixture.pass))
              {| process_mode := "forced image";
                 new_pipeline_methods := None;
                 new_pipeline_steps :=
                   Some (StepsList ["background"; "writeprof"]%string) |}
              ["background"; "writeprof"]%string eq_refl
              ltac:(discriminate))
    as (self' & Hcfg & Hhead & _).
  exists self'. split; [exact Hcfg | exact Hhead].
Defined.

(** X5: a sequence mapping without "head" given in the configuration is
    dropped without a trace of the failure: the AssertionError is swallowed
    by the bare except, the configuration phase returns, and the sequences
    are the ones the mode alone installs; the log still announces the
    mapping as the new steps. *)
Theorem configure_drops_headless_mapping (self : Isophote_Pipeline)
    (c : config) (d : pydict (list string)) :
  new_pipeline_steps c = Some (StepsDict d) ->
  d <> [] ->
  PyDict.mem "head" d = false ->
  exists self',
    fst (configure self c) = Returns self'
    /\ pipeline_steps self'
       = (if PyStr.contains "forced" (process_mode c)
          then PyDict.set "head" forced_head (pipeline_steps self)
          else pipeline_steps self)
    /\ In (LogInfo (MsgNewSteps (StepsDict d))) (snd (configure self c))
    /\ forall m, ~ In (LogError m) (snd (configure self c)).
Proof.
  intros Hsteps Hne Hhead. unfold configure.
  destruct (configure_first self c) as (self1 & l1 & Hu1 & Hs1 & Hl1).
  rewrite Hu1. cbn [upd_end upd_self upd_log]. rewrite Hsteps.
  destruct (UpdatePipeline_no_steps self1 (new_pipeline_methods c))
    as (_ & Hsame).
  assert (Hl2 : forall m,
            ~ In (LogError m)
                (upd_log (UpdatePipeline self1 (new_pipeline_methods c) None))).
  { unfold UpdatePipeline.
    destruct (new_pipeline_methods c) as [[|kv m']|]; cbn [PyDict.truthy upd_log];
      intros m H; try destruct H as [H|[]]; try discriminate; exact H. }
  set (u2 := UpdatePipeline self1 (new_pipeline_methods c) None) in *.
  destruct (UpdatePipeline_headless (upd_self u2) d Hhead)
    as (Hsame' & _ & Hlog).
  rewrite (Hlog Hne). cbn [fst snd].
  eexists. split; [reflexivity|]. split; [now rewrite Hsame', Hsame|].
  split.
  - rewrite !in_app_iff. right. right. now left.
  - intros m. rewrite !in_app_iff.
    intros [H|[H|[H|[]]]]; [now apply (Hl1 m) | now apply (Hl2 m) |
                            discriminate].
Qed.

Lemma configure_drops_headless_mapping_witness :
  exists self',
    fst (configure (init (fun _ => Fixture.pass))
           {| process_mode := "image";
              new_pipeline_methods := None;
              new_pipeline_steps :=
                Some (StepsDict [("tail"%string, ["writeprof"%string])]) |})
    = Returns self'
    /\ pipeline_steps self' = [("head"%string, default_head)].
Proof.
  destruct (configure_drops_headless_mapping (init (fun _ => Fixture.pass))
              {| process_mode := "image";
                 new_pipeline_methods := None;
                 new_pipeline_steps :=
                   Some (StepsDict [("tail"%string, ["writeprof"%string])]) |}
              [("tail"%string, ["writeprof"%string])] eq_refl
              ltac:(discriminate) eq_refl)
    as (self' & Hcfg & Hsteps & _).
  exists self'. split; [exact Hcfg | exact Hsteps].
Defined.

Lemma configure_returns (self : Isophote_Pipeline) (c : config) :
  exists self' l, configure self c = (Returns self', l).
Proof.
  unfold configure.
  destruct (configure_first self c) as (self1 & l1 & -> & _).
  cbn [upd_end]. eexists. eexists. reflexivity.
Qed.

(** X6: a process mode that is none of "image", "forced image",
    "image list", "forced image list" makes [Process_ConfigFile] return
    the failure value [1] with the error as its last log line, without
    reading an image and whatever the fuel; the configuration has been
    applied to the object all the same (a mode such as "forced" installs
    the forced sequence and is then refused). *)
Theorem Process_ConfigFile_unrecognized_mode
    (Read_Image : value -> pydict value -> read_result)
    (GetOptions : config -> pydict value) (clock : nat -> float)
    (job_clock : nat -> nat -> float) (fuel : nat)
    (self : Isophote_Pipeline) (c : config) :
  process_mode c <> "image"%string ->
  process_mode c <> "forced image"%string ->
  process_mode c <> "image list"%string ->
  process_mode c <> "forced image list"%string ->
  exists self' l,
    configure self c = (Returns self', l)
    /\ Process_ConfigFile Read_Image GetOptions clock job_clock fuel self c
       = Some {| cfg_self := self';
                 cfg_returned := Returns (OfImage Failure);
                 cfg_log := l ++ [LogError MsgUnrecognizedMode] |}.
Proof.
  intros H1 H2 H3 H4.
  destruct (configure_returns self c) as (self' & l & Hcfg).
  exists self', l. split; [exact Hcfg|].
  unfold Process_ConfigFile. rewrite Hcfg.
  apply String.eqb_neq in H1, H2, H3, H4. now rewrite H1, H2, H3, H4.
Qed.

Lemma Process_ConfigFile_unrecognized_mode_witness :
  exists self' l,
    configure (init (fun _ => Fixture.pass))
      {| process_mode := "forced"; new_pipeline_methods := None;
         new_pipeline_steps := None |} = (Returns self', l)
    /\ Process_ConfigFile Fixture.unreadable (fun _ => []) Fixture.tick_clock
         Fixture.job_clock 0 (init (fun _ => Fixture.pass))
         {| process_mode := "forced"; new_pipeline_methods := None;
            new_pipeline_steps := None |}
       = Some {| cfg_self := self';
                 cfg_returned := Returns (OfImage Failure);
                 cfg_log := l ++ [LogError MsgUnrecognizedMode] |}.
Proof.
  apply (Process_ConfigFile_unrecognized_mode Fixture.unreadable (fun _ => [])
           Fixture.tick_clock Fixture.job_clock 0
           (init (fun _ => Fixture.pass))
           {| process_mode := "forced"; new_pipeline_methods := None;
              new_pipeline_steps := None |}); discriminate.
Defined.

(** ** The module name of a configuration file (lines 234-241) *)

Lemma append_assoc (a b c : string) :
  ((a ++ b) ++ c)%string = (a ++ b ++ c)%string.
Proof. induction a as [|x a IH]; simpl; [reflexivity | now rewrite IH]. Qed.

Lemma find_at_absent (sub s : string) (start i : nat) :
  PyStr.contains sub s = false -> PyStr.find_at sub s start i = (-1)%Z.
Proof.
  revert i. induction s as [|x s IH]; intros i.
  - rewrite contains_nil. cbn [PyStr.find_at]. intros ->.
    now rewrite andb_false_r.
  - rewrite contains_cons, orb_false_iff. intros [Hp Hc].
    cbn [PyStr.find_at]. rewrite Hp, andb_false_r. now apply IH.
Qed.

Lemma substring_skip (a b : string) (m : nat) :
  String.substring (String.length a) m (a ++ b)%string
  = String.substring 0 m b.
Proof. induction a as [|x a IH]; simpl; [reflexivity | exact IH]. Qed.

Lemma contains_append_l (sub a b : string) :
  PyStr.contains sub a = true -> PyStr.contains sub (a ++ b) = true.
Proof.
  rewrite !contains_iff. intros (pre & post & ->).
  exists pre, (post ++ b)%string. now rewrite !append_assoc.
Qed.

Lemma contains_char_append (c : ascii) (a b : string) :
  PyStr.contains (String c "") (a ++ b)
  = PyStr.contains (String c "") a || PyStr.contains (String c "") b.
Proof.
  induction a as [|x a IH].
  - rewrite contains_nil. simpl append. reflexivity.
  - cbn [append]. rewrite !contains_cons, !prefix_char, IH.
    now rewrite orb_assoc.
Qed.

Lemma substring_whole (b : string) :
  String.substring 0 (String.length b) b = b.
Proof. induction b as [|x b IH]; simpl; [reflexivity | now rewrite IH]. Qed.

Lemma clamp_inside (len n : nat) :
  n <= len -> PyStr.clamp len (Z.of_nat n) = n.
Proof.
  intros H. unfold PyStr.clamp.
  destruct (Z.of_nat n <? 0)%Z eqn:E; [apply Z.ltb_lt in E; lia|].
  rewrite Nat2Z.id. now apply Nat.min_l.
Qed.

(** X7: for a path [dir/base.ext] with no slash after [dir/] and no dot in
    [base], the module name is [base]; so it is for [base.ext] without a
    directory, and for [dir/base] when the path has no dot at all. *)
Theorem config_module_name_base (dir base ext : string) :
  PyStr.contains "/" (base ++ String "." ext) = false ->
  PyStr.contains "." base = false ->
  config_module_name (dir ++ String "/" (base ++ String "." ext)) = base
  /\ config_module_name (base ++ String "." ext) = base
  /\ (PyStr.contains "." dir = false ->
      config_module_name (dir ++ String "/" base) = base).
Proof.
  intros Hslash Hdot.
  assert (Hbase : PyStr.contains "/" base = false).
  { destruct (PyStr.contains "/" base) eqn:E; [|reflexivity].
    now rewrite (contains_append_l _ _ (String "." ext) E) in Hslash. }
  split; [|split].
  - unfold config_module_name.
    set (s := (dir ++ String "/" (base ++ String "." ext))%string).
    assert (Hs : s = ((dir ++ "/") ++ base ++ String "." ext)%string)
      by (unfold s; now rewrite append_assoc).
    assert (Hlen : String.length s
                   = String.length (dir ++ "/")
                     + (String.length base + S (String.length ext))).
    { rewrite Hs, length_append. f_equal. now rewrite length_append. }
    assert (Hd : String.length (dir ++ "/") = String.length dir + 1)
      by now rewrite length_append.
    assert (Hin : PyStr.contains "/" s = true).
    { apply contains_iff. now exists dir, (base ++ String "." ext)%string. }
    assert (Hdt : PyStr.contains "." s = true).
    { apply contains_iff. exists (dir ++ String "/" base)%string, ext.
      unfold s. now rewrite append_assoc. }
    rewrite Hin, Hdt. unfold PyStr.rfind.
    assert (Hr : PyStr.rfind_at "/" s 0 = Z.of_nat (String.length dir))
      by (unfold s; now rewrite rfind_at_last).
    rewrite Hr.
    replace (Z.of_nat (String.length dir) + 1)%Z
      with (Z.of_nat (String.length (dir ++ "/"))) by lia.
    assert (Hf : PyStr.find "." s (Z.of_nat (String.length (dir ++ "/")))
                 = Z.of_nat (String.length (dir ++ "/") + String.length base)).
    { unfold PyStr.find. rewrite clamp_inside by lia.
      rewrite Hs, (find_at_skip "." (dir ++ "/") _ 0). cbn [Nat.add].
      now rewrite find_at_first. }
    rewrite Hf. unfold PyStr.slice. rewrite !clamp_inside by lia.
    replace (String.length (dir ++ "/") + String.length base
             - String.length (dir ++ "/")) with (String.length base) by lia.
    rewrite Hs. apply substring_middle.
  - unfold config_module_name. rewrite Hslash.
    assert (Hdt : PyStr.contains "." (base ++ String "." ext) = true).
    { apply contains_iff. now exists base, ext. }
    rewrite Hdt.
    assert (Hf : PyStr.find "." (base ++ String "." ext) 0
                 = Z.of_nat (String.length base)).
    { unfold PyStr.find. rewrite (clamp_inside _ 0) by lia.
      now rewrite find_at_first. }
    rewrite Hf. unfold PyStr.slice.
    rewrite (clamp_inside _ 0) by lia.
    rewrite clamp_inside by (rewrite length_append; lia).
    rewrite Nat.sub_0_r. apply substring_all.
  - intros Hdir. unfold config_module_name.
    set (s := (dir ++ String "/" base)%string).
    assert (Hs : s = ((dir ++ "/") ++ base)%string)
      by (unfold s; now rewrite append_assoc).
    assert (Hd : String.length (dir ++ "/") = String.length dir + 1)
      by now rewrite length_append.
    assert (Hlen : String.length s
                   = String.length (dir ++ "/") + String.length base)
      by now rewrite Hs, length_append.
    assert (Hin : PyStr.contains "/" s = true).
    { apply contains_iff. now exists dir, base. }
    assert (Hdt : PyStr.contains "." s = false).
    { unfold s. rewrite contains_char_append, Hdir, contains_cons, Hdot.
      reflexivity. }
    rewrite Hin, Hdt. unfold PyStr.rfind.
    assert (Hr : PyStr.rfind_at "/" s 0 = Z.of_nat (String.length dir))
      by (unfold s; now rewrite rfind_at_last).
    rewrite Hr.
    replace (Z.of_nat (String.length dir) + 1)%Z
      with (Z.of_nat (String.length (dir ++ "/"))) by lia.
    unfold PyStr.slice. rewrite !clamp_inside by lia.
    rewrite Hlen.
    replace (String.length (dir ++ "/") + String.length base
             - String.length (dir ++ "/")) with (String.length base) by lia.
    rewrite Hs, substring_skip. apply substring_whole.
Qed.

Lemma config_module_name_base_witness :
  config_module_name ("configs/run1" ++ String "/" ("galaxy" ++ String "." "py"))
  = "galaxy"%string.
Proof.
  apply (proj1 (config_module_name_base "configs/run1" "galaxy" "py"
                  eq_refl eq_refl)).
Defined.

(** X8: when the only dots of the path are in its directory part, the
    test ['.' in config_file] holds but the search after the last slash
    finds none: the slice then ends one character early, and the module
    name is [base] without its last character. *)
Theorem config_module_name_dotted_directory (dir base : string) :
  PyStr.contains "." dir = true ->
  PyStr.contains "." base = false ->
  PyStr.contains "/" base = false ->
  config_module_name (dir ++ String "/" base)
  = String.substring 0 (String.length base - 1) base.
Proof.
  intros Hdir Hdot Hslash. unfold config_module_name.
  set (s := (dir ++ String "/" base)%string).
  assert (Hs : s = ((dir ++ "/") ++ base)%string)
    by (unfold s; now rewrite append_assoc).
  assert (Hd : String.length (dir ++ "/") = String.length dir + 1)
    by now rewrite length_append.
  assert (Hlen : String.length s
                 = String.length (dir ++ "/") + String.length base)
    by now rewrite Hs, length_append.
  assert (Hin : PyStr.contains "/" s = true).
  { apply contains_iff. now exists dir, base. }
  assert (Hdt : PyStr.contains "." s = true)
    by (unfold s; now apply contains_append_l).
  rewrite Hin, Hdt. unfold PyStr.rfind.
  assert (Hr : PyStr.rfind_at "/" s 0 = Z.of_nat (String.length dir))
    by (unfold s; now rewrite rfind_at_last).
  rewrite Hr.
  replace (Z.of_nat (String.length dir) + 1)%Z
    with (Z.of_nat (String.length (dir ++ "/"))) by lia.
  assert (Hf : PyStr.find "." s (Z.of_nat (String.length (dir ++ "/")))
               = (-1)%Z).
  { unfold PyStr.find. rewrite clamp_inside by lia.
    rewrite Hs, (find_at_skip "." (dir ++ "/") _ 0). cbn [Nat.add].
    now apply find_at_absent. }
  rewrite Hf. unfold PyStr.slice. rewrite clamp_inside by lia.
  unfold PyStr.clamp. change (-1 <? 0)%Z with true. cbv iota.
  replace (Z.to_nat (Z.max 0 (-1 + Z.of_nat (String.length s)))
           - String.length (dir ++ "/"))
    with (String.length base - 1) by lia.
  rewrite Hs. apply substring_skip.
Qed.

Lemma config_module_name_dotted_directory_witness :
  config_module_name ("my.dir" ++ String "/" "conf") = "con"%string.
Proof.
  apply (config_module_name_dotted_directory "my.dir" "conf");
    reflexivity.
Defined.

(** ** Process_Image before the loop (lines 116-130) *)

Lemma Process_Image_loop
    (Read_Image : value -> pydict value -> read_result)
    (self : Isophote_Pipeline) (clock : nat -> float) (fuel : nat)
    (options options1 : pydict value) (name : string) (dat0 : ndarray) :
  starts Read_Image options name options1 dat0 ->
  Process_Image Read_Image self clock fuel options
  = match run_loop self clock options1 name (clock 0) fuel
            (initial_state dat0) with
    | None => None
    | Some (Completed st) =>
        Some (ended (Returns (Success (timers st)))
                (log st ++
                 [Printed (MsgComplete name
                    (PrimFloat.sub (clock (clk st)) (clock 0)));
                  LogInfo (MsgComplete name
                    (PrimFloat.sub (clock (S (clk st))) (clock 0)))])
                (calls st))
    | Some (Faulted st) => Some (ended (Returns Failure) (log st) (calls st))
    | Some (Crashed e st) => Some (ended (Raises e) (log st) (calls st))
    end.
Proof.
  intros (Hname & image_file & Hfile & Hread & Hrows & Hchunk).
  unfold Process_Image. rewrite Hname, Hfile, Hread.
  apply Nat.eqb_neq in Hrows. now rewrite Hrows, Hchunk.
Qed.

(** X9: when the file cannot be read ([Read_Image] raises),
    [Process_Image] returns the failure value [1] whatever the fuel, calls
    no step, and logs one error line that carries the job name: the 'name'
    option when it is a string, the name derived from the file otherwise. *)
Theorem unreadable_image_fails
    (Read_Image : value -> pydict value -> read_result)
    (self : Isophote_Pipeline) (clock : nat -> float) (fuel : nat)
    (options : pydict value) (f : string) :
  PyDict.get "image_file" options = Some (VStr f) ->
  (forall o, Read_Image (VStr f) o = ReadRaises) ->
  Process_Image Read_Image self clock fuel options
  = Some (ended (Returns Failure)
            [LogError
               (MsgCouldNotRead
                  match PyDict.get "name" options with
                  | Some (VStr n) => n
                  | _ => derive_name f
                  end (VStr f))] []).
Proof.
  intros Hfile Hread. unfold Process_Image, resolve_name. rewrite Hfile.
  assert (Hkeep : PyDict.get "image_file"
                    (PyDict.set "name" (VStr (derive_name f)) options)
                  = Some (VStr f))
    by (rewrite get_set_other; [exact Hfile | discriminate]).
  destruct (PyDict.get "name" options) as [[| | | |n| |]|];
    rewrite ?Hfile, ?Hkeep, Hread; reflexivity.
Qed.

Lemma unreadable_image_fails_witness :
  Process_Image Fixture.unreadable Fixture.forked Fixture.tick_clock 0
    [("image_file"%string, VStr "a/b.fits"); ("name"%string, VStr "NGC1")]
  = Some (ended (Returns Failure)
            [LogError (MsgCouldNotRead "NGC1" (VStr "a/b.fits"))] []).
Proof.
  apply (unreadable_image_fails Fixture.unreadable Fixture.forked
           Fixture.tick_clock 0
           [("image_file"%string, VStr "a/b.fits");
            ("name"%string, VStr "NGC1")] "a/b.fits").
  - reflexivity.
  - reflexivity.
Defined.

(** X10: options without 'image_file' make [Process_Image] end with an
    uncaught KeyError, not with the failure value: from line 117 when the
    name has to be derived, and, when a 'name' string is given, from the
    except clause of line 124, which indexes the missing key again.
    Nothing is logged. *)
Theorem missing_image_file_raises
    (Read_Image : value -> pydict value -> read_result)
    (self : Isophote_Pipeline) (clock : nat -> float) (fuel : nat)
    (options : pydict value) :
  PyDict.get "image_file" options = None ->
  Process_Image Read_Image self clock fuel options
  = Some (ended (Raises KeyError) [] []).
Proof.
  intros Hfile. unfold Process_Image, resolve_name. rewrite Hfile.
  destruct (PyDict.get "name" options) as [[| | | |n| |]|];
    rewrite ?Hfile; reflexivity.
Qed.

Lemma missing_image_file_raises_witness :
  Process_Image (Fixture.reads Fixture.one_pixel) Fixture.forked
    Fixture.tick_clock 5 [("name"%string, VStr "NGC1")]
  = Some (ended (Raises KeyError) [] []).
Proof.
  apply (missing_image_file_raises (Fixture.reads Fixture.one_pixel)
           Fixture.forked Fixture.tick_clock 5 [("name"%string, VStr "NGC1")]).
  reflexivity.
Defined.

(** ** Faults, straight runs and endless runs (lines 139-165) *)







Lemma run_loop_circles (self : Isophote_Pipeline) (clock : nat -> float)
    (options : pydict value) (name : string) (start : float)
    (K b : string) (rest : list string) (f : step_fn) :
  PyDict.get K (pipeline_steps self) = Some (b :: rest) ->
  PyStr.contains "branch" b = true ->
  PyDict.get b (pipeline_methods self) = Some f ->
  forall fuel st,
    key st = K -> step st = 0 ->
    f (dat st) (results st) options = SStr K ->
    run_loop self clock options name start fuel st = None.
Proof.
  intros Hseq Hbranch Hf. induction fuel as [|fuel IH]; intros st Hk Hs Hret.
  - reflexivity.
  - cbn [run_loop]. rewrite <- Hk in Hseq.
    assert (Hnth : nth_error (b :: rest) (step st) = Some b)
      by now rewrite Hs.
    rewrite (tick_at _ _ _ _ _ _ _ _ Hseq Hnth), Hbranch, Hf, Hret.
    apply IH; cbn [goto called announce read_clock emit key step dat results];
      [reflexivity | reflexivity | exact Hret].
Qed.

(** X13: the loop has no bound on redirections: when the first step of
    "head" is a branch step whose function, on the image read and the
    empty results, answers "head", the run never ends: [Process_Image]
    returns for no amount of fuel. *)
Theorem circular_redirect_never_returns
    (Read_Image : value -> pydict value -> read_result)
    (self : Isophote_Pipeline) (clock : nat -> float)
    (options options1 : pydict value) (name : string) (dat0 : ndarray)
    (b : string) (rest : list string) (f : step_fn) :
  starts Read_Image options name options1 dat0 ->
  PyDict.get "head" (pipeline_steps self) = Some (b :: rest) ->
  PyStr.contains "branch" b = true ->
  PyDict.get b (pipeline_methods self) = Some f ->
  f dat0 [] options1 = SStr "head" ->
  forall fuel, Process_Image Read_Image self clock fuel options = None.
Proof.
  intros Hstart Hseq Hbranch Hf Hret fuel.
  rewrite (Process_Image_loop _ _ _ _ _ _ _ _ Hstart).
  now rewrite (run_loop_circles self clock options1 name (clock 0) "head" b
                 rest f Hseq Hbranch Hf fuel (initial_state dat0)
                 eq_refl eq_refl Hret).
Qed.

Lemma circular_redirect_never_returns_witness :
  Process_Image (Fixture.reads Fixture.one_pixel) Sample.circling
    Fixture.tick_clock 1000 (Fixture.options_for "img.fits") = None.
Proof.
  apply (circular_redirect_never_returns (Fixture.reads Fixture.one_pixel)
           Sample.circling Fixture.tick_clock (Fixture.options_for "img.fits")
           [("image_file"%string, VStr "img.fits");
            ("name"%string, VStr "img")]
           "img" Fixture.one_pixel "branch again" [] (Fixture.jump "head")).
  - split; [reflexivity|]. exists (VStr "img.fits").
    repeat split. discriminate.
  - reflexivity.
  - reflexivity.
  - reflexivity.
  - reflexivity.
Defined.

(** ** The window of the empty-frame check (line 128) *)

Lemma window_large (len : nat) :
  20 <= len ->
  window len = seq (Z.to_nat (Z.of_nat len / 2 - 10)) 20.
Proof.
  intros H. unfold window, PyStr.clamp.
  pose proof (Z.div_pos (Z.of_nat len) 2 ltac:(lia) ltac:(lia)) as Hmid.
  assert (Hlo : (10 <= Z.of_nat len / 2)%Z)
    by (apply Z.div_le_lower_bound; lia).
  assert (Hhi : (2 * (Z.of_nat len / 2) <= Z.of_nat len)%Z)
    by (apply Z.mul_div_le; lia).
  set (mid := (Z.of_nat len / 2)%Z) in *.
  destruct (mid - 10 <? 0)%Z eqn:E1; [apply Z.ltb_lt in E1; lia|].
  destruct (mid + 10 <? 0)%Z eqn:E2; [apply Z.ltb_lt in E2; lia|].
  f_equal; lia.
Qed.

Lemma window_small (len i : nat) :
  0 < len < 20 ->
  In i (window len)
  <-> (Z.max 0 (Z.of_nat len + Z.of_nat len / 2 - 10) <= Z.of_nat i
       < Z.of_nat len)%Z.
Proof.
  intros H. unfold window, PyStr.clamp. rewrite in_seq.
  pose proof (Z.div_pos (Z.of_nat len) 2 ltac:(lia) ltac:(lia)) as Hmid.
  assert (Hlt : (Z.of_nat len / 2 < 10)%Z)
    by (apply Z.div_lt_upper_bound; lia).
  assert (Hhi : (Z.of_nat len <= 2 * (Z.of_nat len / 2) + 1)%Z).
  { pose proof (Z.mod_pos_bound (Z.of_nat len) 2 ltac:(lia)).
    pose proof (Z.div_mod (Z.of_nat len) 2 ltac:(lia)). lia. }
  set (mid := (Z.of_nat len / 2)%Z) in *.
  destruct (mid - 10 <? 0)%Z eqn:E1; [|apply Z.ltb_ge in E1; lia].
  destruct (mid + 10 <? 0)%Z eqn:E2; [apply Z.ltb_lt in E2; lia|].
  lia.
Qed.

(** X14: on a frame of at least 20 rows and 20 columns the check of line
    128 reads exactly 20 rows and 20 columns around the midpoint, and it
    rejects the frame if and only if every pixel of that centred window is
    zero. *)
Theorem central_check_exact (a : ndarray) :
  20 <= shape0 a ->
  20 <= shape1 a ->
  length (window (shape0 a)) = 20
  /\ length (window (shape1 a)) = 20
  /\ (chunk_missing a = true <-> center_window_zero a).
Proof.
  intros H0 H1. rewrite !window_large by assumption. rewrite !length_seq.
  split; [reflexivity|]. split; [reflexivity|]. split.
  - intros Hc i j Hi Hj Hwi Hwj. unfold chunk_missing in Hc.
    rewrite !window_large in Hc by assumption.
    rewrite forallb_forall in Hc.
    assert (Hin : In i (seq (Z.to_nat (Z.of_nat (shape0 a) / 2 - 10)) 20))
      by (apply in_seq; lia).
    specialize (Hc i Hin). rewrite forallb_forall in Hc.
    apply Hc. apply in_seq. lia.
  - apply center_window_zero_chunk.
Qed.

Lemma central_check_exact_witness :
  length (window (shape0 Fixture.holed)) = 20
  /\ length (window (shape1 Fixture.holed)) = 20
  /\ (chunk_missing Fixture.holed = true <-> center_window_zero Fixture.holed).
Proof.
  apply (central_check_exact Fixture.holed); simpl; lia.
Defined.

(** X15: on a frame of fewer than 20 rows the lower bound of the slice is
    negative and counts from the end: the check reads only the rows from
    [n + n/2 - 10] (or 0) to the last, so it rejects the frame if and only
    if those rows are zero over the columns it reads; with 11 to 19 rows the
    middle row is not among them. *)
Theorem short_frame_check (a : ndarray) :
  0 < shape0 a < 20 ->
  (chunk_missing a = true
   <-> forall i j,
         (Z.max 0 (Z.of_nat (shape0 a) + Z.of_nat (shape0 a) / 2 - 10)
          <= Z.of_nat i < Z.of_nat (shape0 a))%Z ->
         In j (window (shape1 a)) ->
         PrimFloat.eqb (item a i j) PrimFloat.zero = true)
  /\ (11 <= shape0 a ->
      ~ In (Z.to_nat (Z.of_nat (shape0 a) / 2)) (window (shape0 a))).
Proof.
  intros H. split.
  - unfold chunk_missing. rewrite forallb_forall. split.
    + intros Hc i j Hi Hj.
      apply (window_small _ i H) in Hi. specialize (Hc i Hi).
      rewrite forallb_forall in Hc. now apply Hc.
    + intros Hz i Hi. apply forallb_forall. intros j Hj.
      apply Hz; [now apply (window_small _ i H) | exact Hj].
  - intros H11 Hin. apply (window_small _ _ H) in Hin.
    pose proof (Z.div_pos (Z.of_nat (shape0 a)) 2 ltac:(lia) ltac:(lia)).
    assert ((Z.of_nat (shape0 a) / 2 < 10)%Z)
      by (apply Z.div_lt_upper_bound; lia).
    lia.
Qed.

Lemma short_frame_check_witness :
  chunk_missing Sample.low_frame = true.
Proof.
  apply (proj1 (short_frame_check Sample.low_frame ltac:(simpl; lia))).
  intros i j Hi _. cbn [Sample.low_frame shape0 item] in *.
  change (Z.of_nat 19 / 2)%Z with 9%Z in Hi.
  assert (Hi18 : (i =? 18)%nat = true) by (apply Nat.eqb_eq; lia).
  now rewrite Hi18.
Defined.

(** ** A regular pass (lines 153-157) *)

(** X16: a regular step that returns the pair [(dat', res)] leaves the
    results merged last-write-wins: a key of [res] reads the value of
    [res], any other key reads what it read before, and no key is lost;
    the image becomes [dat']; and the time recorded under the step name is
    the difference between the clock readings taken right after and right
    before the call. *)
Theorem regular_pass_merges (self : Isophote_Pipeline) (clock : nat -> float)
    (options : pydict value) (name : string) (start : float)
    (st : run_state) (sequence : list string) (stepname : string)
    (f : step_fn) (dat' : ndarray) (res : pydict value) :
  PyDict.get (key st) (pipeline_steps self) = Some sequence ->
  nth_error sequence (step st) = Some stepname ->
  PyStr.contains "branch" stepname = false ->
  PyDict.get stepname (pipeline_methods self) = Some f ->
  f (dat st) (results st) options = SPair dat' res ->
  NoDup (PyDict.keys res) ->
  exists st',
    tick self clock options name start st = Continue st'
    /\ (forall k, PyDict.get k (results st')
                  = match PyDict.get k res with
                    | Some v => Some v
                    | None => PyDict.get k (results st)
                    end)
    /\ (forall k, In k (PyDict.keys (results st)) ->
                  In k (PyDict.keys (results st')))
    /\ dat st' = dat'
    /\ PyDict.get stepname (timers st')
       = Some (PrimFloat.sub (clock (clk st + 3)) (clock (clk st + 2))).
Proof.
  intros Hseq Hnth Hplain Hf Hret Hnd.
  rewrite (tick_at _ _ _ _ _ _ _ _ Hseq Hnth), Hplain, Hf, Hret.
  eexists. split; [reflexivity|].
  cbn [goto read_clock stored called announce emit results dat timers clk].
  split; [intros k; now apply get_update|].
  split; [intros k Hk; apply in_keys_update; now left|].
  split; [reflexivity|].
  rewrite get_set_same. do 2 f_equal; f_equal; lia.
Qed.

Lemma regular_pass_merges_witness :
  exists st',
    tick {| pipeline_methods :=
              [("psf"%string, Sample.measures "psf fwhm" (VInt 3))];
            pipeline_steps := [("head"%string, ["psf"%string])] |}
      Fixture.tick_clock [] "job" PrimFloat.zero
      (Sample.at_head [("psf fwhm"%string, VInt 1);
                       ("background"%string, VInt 7)])
    = Continue st'
    /\ PyDict.get "psf fwhm" (results st') = Some (VInt 3)
    /\ PyDict.get "background" (results st') = Some (VInt 7).
Proof.
  destruct (regular_pass_merges
              {| pipeline_methods :=
                   [("psf"%string, Sample.measures "psf fwhm" (VInt 3))];
                 pipeline_steps := [("head"%string, ["psf"%string])] |}
              Fixture.tick_clock [] "job" PrimFloat.zero
              (Sample.at_head [("psf fwhm"%string, VInt 1);
                               ("background"%string, VInt 7)])
              ["psf"%string] "psf"
              (Sample.measures "psf fwhm" (VInt 3))
              Fixture.one_pixel [("psf fwhm"%string, VInt 3)]
              eq_refl eq_refl eq_refl eq_refl eq_refl)
    as (st' & Htick & Hget & _).
  - repeat constructor; simpl; intuition.
  - exists st'. split; [exact Htick|].
    split; [exact (Hget "psf fwhm"%string) | exact (Hget "background"%string)].
Defined.

(** ** PSF_IRAF as a step (PSF.py, lines 21-98) *)



(** ** The options of each job (lines 176-187) *)

(** X18: the options built for image [i] have the keys of the batch
    options: an entry that is a list gives its element [i], any other
    entry is handed over as it is, and there are as many option dicts as
    images. *)
Theorem per_image_options (options : pydict value) (images : list value)
    (use : list (pydict value)) (parallel : bool) :
  NoDup (PyDict.keys options) ->
  prepare options = Returns (images, use, parallel) ->
  length use = length images
  /\ forall i o,
       nth_error use i = Some o ->
       forall k,
         PyDict.get k o
         = match PyDict.get k options with
           | Some (VList l) => nth_error l i
           | Some v => Some v
           | None => None
           end.
Proof.
  intros Hnd Hprep.
  destruct (prepare_spec _ _ _ _ Hprep) as [_ Heach].
  destruct (each_index_seq _ _ _ _ Heach) as [Hlen Hnth].
  split; [exact Hlen|].
  intros i o Ho k. specialize (Hnth i o Ho). simpl in Hnth.
  rewrite (index_options_get i options Hnd [] o Hnth k).
  destruct (PyDict.get k options) as [[| | | | | |]|]; reflexivity.
Qed.

Lemma per_image_options_witness :
  length Fixture.three_options = length (map VStr Fixture.three_files)
  /\ forall i o,
       nth_error Fixture.three_options i = Some o ->
       forall k,
         PyDict.get k o
         = match PyDict.get k (Fixture.batch_options Fixture.three_files) with
           | Some (VList l) => nth_error l i
           | Some v => Some v
           | None => None
           end.
Proof.
  apply (per_image_options (Fixture.batch_options Fixture.three_files)
           (map VStr Fixture.three_files) Fixture.three_options false).
  - repeat constructor; simpl; intuition discriminate.
  - reflexivity.
Defined.

Lemma index_options_raises (i : nat) (todo : pydict value) :
  forall tmp e, index_options i todo tmp = Raises e -> e = IndexError.
Proof.
  induction todo as [|[k v] todo IH]; intros tmp e H; [discriminate|].
  destruct v; cbn [index_options] in H; try (now apply (IH _ _ H)).
  destruct (nth_error l i); [now apply (IH _ _ H) | congruence].
Qed.

Lemma index_options_short (i : nat) (k : string) (l : list value)
    (todo : pydict value) :
  In (k, VList l) todo ->
  nth_error l i = None ->
  forall tmp, index_options i todo tmp = Raises IndexError.
Proof.
  intros Hin Hshort.
  induction todo as [|[k' v'] todo IH]; intros tmp; [destruct Hin|].
  destruct Hin as [[= -> ->]|Hin].
  - cbn [index_options]. now rewrite Hshort.
  - destruct v'; cbn [index_options]; try (now apply IH).
    destruct (nth_error l0 i); [now apply IH | reflexivity].
Qed.

Lemma each_index_short (options : pydict value) (i : nat) :
  index_options i options [] = Raises IndexError ->
  forall indices, In i indices ->
    each_index options indices = Raises IndexError.
Proof.
  intros Hi. induction indices as [|j indices IH]; intros Hin; [destruct Hin|].
  cbn [each_index].
  destruct (index_options j options []) as [tmp|e] eqn:E.
  - cbn [bind]. destruct Hin as [->|Hin]; [congruence|].
    now rewrite (IH Hin).
  - cbn [bind]. now rewrite (index_options_raises _ _ _ _ E).
Qed.

(** X19: when an option is a list shorter than the list of images,
    [Process_List] ends with an uncaught IndexError while it builds the
    per-image options: no image is processed and nothing is logged. *)
Theorem short_option_list_raises
    (Read_Image : value -> pydict value -> read_result)
    (self : Isophote_Pipeline) (job_clock : nat -> nat -> float)
    (fuel : nat) (clock : nat -> float) (options : pydict value)
    (images : list value) (k : string) (l : list value) :
  PyDict.get "image_file" options = Some (VList images) ->
  In (k, VList l) options ->
  length l < length images ->
  Process_List Read_Image self job_clock fuel clock options
  = Some {| batch_returned := Raises IndexError; batch_log := [];
            batch_jobs := [] |}.
Proof.
  intros Hfile Hin Hshort. unfold Process_List, prepare, broadcast.
  rewrite Hfile, (has_list_not_all_scalar _ _ _ Hfile).
  rewrite (each_index_short options (length l)).
  - reflexivity.
  - apply (index_options_short _ k l); [exact Hin|].
    apply nth_error_None. lia.
  - apply in_seq. lia.
Qed.

Lemma short_option_list_raises_witness :
  Process_List (Fixture.reads Fixture.one_pixel) Fixture.forked
    Fixture.job_clock 9 Fixture.tick_clock
    [("image_file"%string, VList [VStr "a.fits"; VStr "b.fits"]);
     ("n_procs"%string, VInt 1);
     ("name"%string, VList [VStr "first"])]
  = Some {| batch_returned := Raises IndexError; batch_log := [];
            batch_jobs := [] |}.
Proof.
  apply (short_option_list_raises (Fixture.reads Fixture.one_pixel)
           Fixture.forked Fixture.job_clock 9 Fixture.tick_clock
           [("image_file"%string, VList [VStr "a.fits"; VStr "b.fits"]);
            ("n_procs"%string, VInt 1);
            ("name"%string, VList [VStr "first"])]
           [VStr "a.fits"; VStr "b.fits"] "name" [VStr "first"]).
  - reflexivity.
  - right. right. left. reflexivity.
  - simpl. lia.
Defined.

(** ** The end of a batch (lines 192-221) *)

Lemma sum_timers_nothing (res : list outcome) :
  (forall o, In o res -> o = Failure \/ o = Success []) ->
  sum_timers res [] [] = Returns ([], []).
Proof.
  induction res as [|o res IH]; intros H; [reflexivity|].
  destruct (H o (or_introl eq_refl)) as [-> | ->]; cbn [sum_timers add_timers bind fst snd];
    apply IH; intros o' Ho'; apply H; now right.
Qed.

(** X20: a batch in which no job recorded a timing is reported as failed
    and returns nothing, also when jobs succeeded: it is enough that every
    outcome is the failure value or an empty timers dict, as with an empty
    list of images or a sequence made of branch steps only. *)
Theorem untimed_batch_reported_failed
    (Read_Image : value -> pydict value -> read_result)
    (self : Isophote_Pipeline) (job_clock : nat -> nat -> float)
    (fuel : nat) (clock : nat -> float) (options : pydict value)
    (images : list value) (use : list (pydict value)) (parallel : bool)
    (outs : list outcome) :
  prepare options = Returns (images, use, parallel) ->
  jobs_return Read_Image self job_clock fuel 0 use outs ->
  (forall o, In o outs -> o = Failure \/ o = Success []) ->
  exists b,
    Process_List Read_Image self job_clock fuel clock options = Some b
    /\ batch_returned b = Returns NoValue
    /\ batch_log b
       = [LogInfo (MsgAllFinished (PrimFloat.sub (clock 1) (clock 0)));
          LogError MsgAllFailed].
Proof.
  intros Hprep Hjobs Hout.
  destruct (Process_List_report _ _ _ _ clock _ _ _ _ _ Hprep Hjobs)
    as (b & Hb & Hrep & _).
  exists b. split; [exact Hb|].
  unfold report in Hrep. rewrite (sum_timers_nothing outs Hout) in Hrep.
  cbn [length Nat.eqb app] in Hrep. now injection Hrep as -> ->.
Qed.

Lemma untimed_batch_reported_failed_witness :
  exists b,
    Process_List (Fixture.reads Fixture.one_pixel) Sample.untimed
      Fixture.job_clock 9 Fixture.tick_clock
      (Fixture.batch_options ["a.fits"%string]) = Some b
    /\ batch_returned b = Returns NoValue
    /\ batch_log b
       = [LogInfo (MsgAllFinished
                     (PrimFloat.sub (Fixture.tick_clock 1) (Fixture.tick_clock 0)));
          LogError MsgAllFailed].
Proof.
  apply (untimed_batch_reported_failed (Fixture.reads Fixture.one_pixel)
           Sample.untimed Fixture.job_clock 9 Fixture.tick_clock
           (Fixture.batch_options ["a.fits"%string]) [VStr "a.fits"]
           [[("image_file"%string, VStr "a.fits"); ("n_procs"%string, VInt 1)]]
           false [Success []]).
  - reflexivity.
  - lazy. repeat split. eexists. split; reflexivity.
  - intros o [<-|[]]. now right.
Defined.

Lemma gather_raise (runs : list image_run) (outs : list outcome)
    (r : image_run) (e : exn) :
  gather runs = Returns outs ->
  returned r = Raises e ->
  gather (runs ++ [r]) = Raises e.
Proof.
  revert outs. induction runs as [|r0 runs IH]; intros outs Hg Hr.
  - cbn [app gather]. now rewrite Hr.
  - cbn [app gather] in *.
    destruct (returned r0) as [o|e0]; [|discriminate]. cbn [bind] in *.
    destruct (gather runs) as [res|e1] eqn:E; [|discriminate].
    now rewrite (IH res eq_refl Hr).
Qed.

Lemma map_sequential_raise
    (Read_Image : value -> pydict value -> read_result)
    (self : Isophote_Pipeline) (job_clock : nat -> nat -> float)
    (fuel : nat) (o : pydict value) (post : list (pydict value))
    (r : image_run) (e : exn) (pre : list (pydict value)) :
  forall i outs,
    jobs_return Read_Image self job_clock fuel i pre outs ->
    Process_Image Read_Image self (job_clock (i + length pre)) fuel o
    = Some r ->
    returned r = Raises e ->
    exists runs,
      map_sequential Read_Image self job_clock fuel i (pre ++ o :: post)
      = Some (runs ++ [r])
      /\ gather runs = Returns outs
      /\ length runs = length pre.
Proof.
  induction pre as [|o0 pre IH]; intros i [|out outs] Hjobs Hrun Hret;
    simpl in Hjobs; try tauto.
  - exists []. cbn [app map_sequential]. rewrite Nat.add_0_r in Hrun.
    rewrite Hrun, Hret. now repeat split.
  - destruct Hjobs as [(r0 & Hrun0 & Hret0) Hjobs].
    cbn [length] in Hrun. rewrite <- plus_n_Sm in Hrun.
    destruct (IH (S i) outs Hjobs Hrun Hret) as (runs & Hmap & Hg & Hlen).
    exists (r0 :: runs). cbn [app map_sequential gather length].
    rewrite Hrun0, Hret0, Hmap. cbn [bind]. rewrite Hg, Hlen.
    now repeat split.
Qed.

(** X21: the isolation of faults stops at exceptions the run of an image
    does not catch: in sequential mode, when the jobs before job [j]
    return and job [j] ends with an uncaught exception, [Process_List]
    ends with that exception, logs nothing of its own, and the jobs after
    [j] are not run. *)
Theorem uncaught_job_ends_batch
    (Read_Image : value -> pydict value -> read_result)
    (self : Isophote_Pipeline) (job_clock : nat -> nat -> float)
    (fuel : nat) (clock : nat -> float) (options : pydict value)
    (images : list value) (pre post : list (pydict value))
    (o : pydict value) (outs : list outcome) (r : image_run) (e : exn) :
  prepare options = Returns (images, pre ++ o :: post, false) ->
  jobs_return Read_Image self job_clock fuel 0 pre outs ->
  Process_Image Read_Image self (job_clock (length pre)) fuel o = Some r ->
  returned r = Raises e ->
  exists b,
    Process_List Read_Image self job_clock fuel clock options = Some b
    /\ batch_returned b = Raises e
    /\ batch_log b = []
    /\ length (batch_jobs b) = S (length pre).
Proof.
  intros Hprep Hjobs Hrun Hret. unfold Process_List. rewrite Hprep.
  destruct (map_sequential_raise Read_Image self job_clock fuel o post r e
              pre 0 outs Hjobs Hrun Hret) as (runs & -> & Hg & Hlen).
  rewrite (gather_raise _ _ _ _ Hg Hret).
  eexists. split; [reflexivity|]. cbn [batch_returned batch_log batch_jobs].
  repeat split. rewrite length_app. simpl. lia.
Qed.

Lemma uncaught_job_ends_batch_witness :
  exists b,
    Process_List (Fixture.reads Fixture.one_pixel) Fixture.lost
      Fixture.job_clock 9 Fixture.tick_clock
      (Fixture.batch_options ["a.fits"; "b.fits"]%string) = Some b
    /\ batch_returned b = Raises KeyError
    /\ batch_log b = []
    /\ length (batch_jobs b) = 1.
Proof.
  eapply (uncaught_job_ends_batch (Fixture.reads Fixture.one_pixel)
            Fixture.lost Fixture.job_clock 9 Fixture.tick_clock
            (Fixture.batch_options ["a.fits"; "b.fits"]%string)
            [VStr "a.fits"; VStr "b.fits"] []
            [[("image_file"%string, VStr "b.fits"); ("n_procs"%string, VInt 1)]]
            [("image_file"%string, VStr "a.fits"); ("n_procs"%string, VInt 1)]
            []).
  - reflexivity.
  - exact I.
  - lazy. reflexivity.
  - reflexivity.
Defined.

(** ** The derived job name (lines 117-118) *)

(** X22: the job name derived from a file name: [base] for [base.ext]
    without a directory; [/base], with the slash, for [dir/base.ext]; and,
    for a name with neither slash nor dot, the name without its last
    character, since [find] answers -1 and the slice stops before the end. *)
Theorem job_name_of_path (dir base ext : string) :
  PyStr.contains "/" (base ++ String "." ext) = false ->
  PyStr.contains "." base = false ->
  derive_name (base ++ String "." ext) = base
  /\ derive_name (dir ++ String "/" (base ++ String "." ext))
     = String "/" base
  /\ (PyStr.contains "/" base = false ->
      derive_name base = String.substring 0 (String.length base - 1) base).
Proof.
  intros Hslash Hdot. split; [|split].
  - unfold derive_name. rewrite Hslash.
    assert (Hf : PyStr.find "." (base ++ String "." ext) 0
                 = Z.of_nat (String.length base)).
    { unfold PyStr.find. rewrite (clamp_inside _ 0) by lia.
      now rewrite find_at_first. }
    rewrite Hf. unfold PyStr.slice.
    rewrite (clamp_inside _ 0) by lia.
    rewrite clamp_inside by (rewrite length_append; lia).
    rewrite Nat.sub_0_r. apply substring_all.
  - now apply derive_name_with_directory.
  - intros Hb. unfold derive_name. rewrite Hb.
    assert (Hf : PyStr.find "." base 0 = (-1)%Z).
    { unfold PyStr.find. now apply find_at_absent. }
    rewrite Hf. unfold PyStr.slice. rewrite (clamp_inside _ 0) by lia.
    unfold PyStr.clamp. change (-1 <? 0)%Z with true. cbv iota.
    f_equal. lia.
Qed.

Lemma job_name_of_path_witness :
  derive_name ("ESO479" ++ String "." "fits") = "ESO479"%string
  /\ derive_name ("data/r" ++ String "/" ("ESO479" ++ String "." "fits"))
     = String "/" "ESO479"
  /\ (PyStr.contains "/" "ESO479" = false ->
      derive_name "ESO479"
      = String.substring 0 (String.length "ESO479" - 1) "ESO479").
Proof.
  apply (job_name_of_path "data/r" "ESO479" "fits"); reflexivity.
Defined.

(** ** Failures and the log *)

Lemma no_error_app (l l' : list event) :
  no_error l -> no_error l' -> no_error (l ++ l').
Proof.
  intros H H' m Hin. apply in_app_iff in Hin.
  destruct Hin; [now apply (H m) | now apply (H' m)].
Qed.

Lemma tick_log (self : Isophote_Pipeline) (clock : nat -> float)
    (options : pydict value) (name : string) (start : float)
    (st : run_state) :
  no_error (log st) ->
  match tick self clock options name start st with
  | Continue st' | Exit st' | Uncaught _ st' => no_error (log st')
  | Fault st' => has_error (log st')
  end.
Proof.
  intros Hlog. unfold tick.
  destruct (PyDict.get (key st) (pipeline_steps self)); [|exact Hlog].
  destruct (step st <? length l)%nat; [|exact Hlog].
  set (stepname := nth (step st) l ""%string).
  assert (Hann : no_error (log (announce clock name start stepname st))).
  { cbn [announce read_clock emit log]. apply no_error_app; [exact Hlog|].
    intros m [H|[H|[]]]; discriminate. }
  assert (Herr : forall st0, has_error (log (handler name stepname st0))).
  { intros st0. exists (MsgStepError name stepname).
    cbn [handler emit log]. apply in_app_iff. right. now left. }
  destruct (PyStr.contains "branch" stepname);
    destruct (PyDict.get stepname (pipeline_methods self));
    try apply Herr;
    destruct (s (dat st) (results st) options); try apply Herr; exact Hann.
Qed.

Lemma run_loop_log (self : Isophote_Pipeline) (clock : nat -> float)
    (options : pydict value) (name : string) (start : float) (fuel : nat) :
  forall st e,
    no_error (log st) ->
    run_loop self clock options name start fuel st = Some e ->
    match e with
    | Completed st' | Crashed _ st' => no_error (log st')
    | Faulted st' => has_error (log st')
    end.
Proof.
  induction fuel as [|fuel IH]; intros st e Hlog H; [discriminate|].
  cbn [run_loop] in H.
  pose proof (tick_log self clock options name start st Hlog) as Ht.
  destruct (tick self clock options name start st);
    [now apply (IH _ _ Ht) | | |]; now injection H as <-.
Qed.

(** X23: the failure value and the error lines go together: whenever
    [Process_Image] ends, it has returned [1] if and only if it logged an
    error line; a successful run logs none, and neither does a run that
    ends with an uncaught exception. *)
Theorem failure_iff_error_logged
    (Read_Image : value -> pydict value -> read_result)
    (self : Isophote_Pipeline) (clock : nat -> float) (fuel : nat)
    (options : pydict value) (r : image_run) :
  Process_Image Read_Image self clock fuel options = Some r ->
  (returned r = Returns Failure <-> exists m, In (LogError m) (run_log r)).
Proof.
  unfold Process_Image. intros H.
  assert (Hnone : forall c, c <> Returns Failure ->
            (c = Returns Failure
             <-> exists m, In (LogError m) (@nil event))).
  { intros c Hc. split; [congruence | intros [m []]]. }
  assert (Hone : forall m0,
            (Returns Failure = Returns Failure
             <-> exists m, In (LogError m) [LogError m0])).
  { intros m0. split; [intros _; exists m0; now left | reflexivity]. }
  destruct (resolve_name options) as [[name options1]|];
    [|injection H as <-; now apply Hnone].
  destruct (PyDict.get "image_file" options1);
    [|injection H as <-; now apply Hnone].
  destruct (Read_Image v options1) as [|[dat0|]];
    try (injection H as <-; now apply Hone).
  destruct (shape0 dat0 =? 0)%nat; [injection H as <-; now apply Hnone|].
  destruct (chunk_missing dat0); [injection H as <-; now apply Hone|].
  destruct (run_loop self clock options1 name (clock 0) fuel
              (initial_state dat0)) as [e|] eqn:E; [|discriminate].
  pose proof (run_loop_log self clock options1 name (clock 0) fuel
                (initial_state dat0) e ltac:(intros m []) E) as Hl.
  destruct e as [st|st|e st]; injection H as <-;
    cbn [ended returned run_log].
  - split; [discriminate|]. intros [m Hin]. exfalso.
    apply in_app_iff in Hin. destruct Hin as [Hin|[Hin|[Hin|[]]]];
      [now apply (Hl m) | discriminate | discriminate].
  - split; [intros _; exact Hl | reflexivity].
  - split; [discriminate|]. intros [m Hin]. exfalso. now apply (Hl m).
Qed.

Lemma failure_iff_error_logged_witness :
  exists r,
    Process_Image (Fixture.reads Fixture.holed) Fixture.forked
      Fixture.tick_clock 3 (Fixture.options_for "img.fits") = Some r
    /\ (returned r = Returns Failure
        <-> exists m, In (LogError m) (run_log r)).
Proof.
  eexists. split; [reflexivity|].
  apply (failure_iff_error_logged (Fixture.reads Fixture.holed)
           Fixture.forked Fixture.tick_clock 3
           (Fixture.options_for "img.fits")).
  reflexivity.
Defined.
